(** * The overlay document editor (DocumentEditor): history, drag and export

    A shallow embedding of the React component [DocumentEditor]: its state
    cells, its event handlers, the two history effects that run after a
    render, the signature drag, the overlay-to-PDF coordinate transform and
    the export routine.  The canvas editor [PDFEditor] follows in the
    module [CanvasEditor].

    JavaScript numbers that take part in pixel arithmetic are IEEE-754
    doubles and are modelled by Rocq's primitive [float].  [currentStep]
    and the [Date.now()] identifiers only ever hold integers and are
    modelled by [Z].  Text values are sequences of UTF-16 code units. *)

From Stdlib Require Import ZArith NArith List Bool Ascii String Lia.
From Stdlib Require Import Floats.
Import ListNotations.

Local Open Scope Z_scope.

(* ------------------------------------------------------------------ *)
(** ** JavaScript primitives used by the component *)

Module JS.

Definition number := float.

(** A JavaScript string: its UTF-16 code units. *)
Definition jsstring := list N.

(** Embedding of an ASCII literal. *)
Fixpoint lit (s : string) : jsstring :=
  match s with
  | EmptyString => []
  | String c s' => N_of_ascii c :: lit s'
  end.

(** [WhiteSpace] and [LineTerminator] code points of ECMAScript, the
    ones [String.prototype.trim] strips. *)
Definition isWhiteSpace (c : N) : bool :=
  (   (c =? 0x09) || (c =? 0x0A) || (c =? 0x0B) || (c =? 0x0C)
   || (c =? 0x0D) || (c =? 0x20) || (c =? 0xA0) || (c =? 0x1680)
   || ((0x2000 <=? c) && (c <=? 0x200A))
   || (c =? 0x2028) || (c =? 0x2029) || (c =? 0x202F)
   || (c =? 0x205F) || (c =? 0x3000) || (c =? 0xFEFF))%N.

Fixpoint trimStart (s : jsstring) : jsstring :=
  match s with
  | [] => []
  | c :: s' => if isWhiteSpace c then trimStart s' else s
  end.

Definition trimEnd (s : jsstring) : jsstring := rev (trimStart (rev s)).

(** [s.trim()] *)
Definition trim (s : jsstring) : jsstring := trimEnd (trimStart s).

(** Truthiness of a string value: only the empty string is falsy. *)
Definition truthy_string (s : jsstring) : bool :=
  match s with [] => false | _ :: _ => true end.

(** Truthiness of a nullable Rocq-literal string (URLs, data URLs). *)
Definition truthy_opt (o : option string) : bool :=
  match o with
  | None => false
  | Some s => negb (String.eqb s EmptyString)
  end.

(** [arr.slice(0, e)] for an integer [e]: a negative end counts from
    the end of the array, an end past the length is the length. *)
Definition slice0 {A : Type} (arr : list A) (e : Z) : list A :=
  let len := Z.of_nat (List.length arr) in
  let k := if e <? 0 then Z.max (len + e) 0 else Z.min e len in
  firstn (Z.to_nat k) arr.

(** [arr[i]] for an integer [i]; [None] is [undefined]. *)
Definition index {A : Type} (arr : list A) (i : Z) : option A :=
  if i <? 0 then None else nth_error arr (Z.to_nat i).

(** [Math.max(a, b)]: NaN is contagious and [+0] is larger than [-0]. *)
Definition Math_max (a b : float) : float :=
  if is_nan a || is_nan b then nan
  else if (a <? b)%float then b
  else if (b <? a)%float then a
  else if is_zero a && get_sign a then b else a.

(** [Math.min(a, b)]: NaN is contagious and [-0] is smaller than [+0]. *)
Definition Math_min (a b : float) : float :=
  if is_nan a || is_nan b then nan
  else if (a <? b)%float then a
  else if (b <? a)%float then b
  else if is_zero a && negb (get_sign a) then b else a.

End JS.

Import JS.

(* ------------------------------------------------------------------ *)
(** ** Data model *)

(** One entry of [textInputs]: [{ id, x, y, value }]. *)
Module TextInput.
Record t : Type := mk { id : Z; x : number; y : number; value : jsstring }.
Arguments mk id%_Z (x y)%_float value.
End TextInput.

(** [signaturePosition]: [{ x, y }] in overlay pixels. *)
Module Pos.
Record t : Type := mk { x : number; y : number }.
Arguments mk (x y)%_float.
End Pos.

(** [pageDimensions]: [{ width, height }] of the first PDF page. *)
Module Dim.
Record t : Type := mk { width : number; height : number }.
Arguments mk (width height)%_float.
End Dim.

(** The object [updateState] stores in [tempState] and the effects push
    onto [history]: [{ textInputs, signatureData, signaturePosition }]. *)
Module Snapshot.
Record t : Type := mk {
  textInputs : list TextInput.t;
  signatureData : option string;
  signaturePosition : Pos.t
}.
End Snapshot.

Definition ArrayBuffer := list Byte.byte.

(** The callback a pending debounce timer will call: the render it was
    created in (the three cells [updateState] reads from its closure) and
    the arguments [(id, value)]. *)
Record Timer : Type := mkTimer {
  tm_render : Snapshot.t;
  tm_id : Z;
  tm_value : jsstring
}.

(** The locals of one [handleSignatureMouseDown] call, shared by the
    [mousemove] and [mouseup] listeners it registers on [document]. *)
Record Drag : Type := mkDrag {
  startX : number;
  startY : number;
  initPos : Pos.t
}.
Arguments mkDrag (startX startY)%_float initPos.

(** The component's state cells ([useState]) followed by its mutable
    cells: the [pendingChanges] ref, the debounce hook's pending timer and
    the drag listeners currently registered on [document].
    [interactionMode] only routes pointer events and is left out. *)
Record State : Type := mkState {
  fileUrl : option string;
  pdfBytes : option ArrayBuffer;
  pageDimensions : Dim.t;
  containerHeight : number;
  textInputs : list TextInput.t;
  signatureData : option string;
  signaturePosition : Pos.t;
  history : list Snapshot.t;
  currentStep : Z;
  tempState : option Snapshot.t;
  pendingChanges : bool;
  timeoutRef : option Timer;
  dragListeners : list Drag
}.

(** The values the [useState]/[useRef] calls start from. *)
Definition initial : State :=
  {| fileUrl := None;
     pdfBytes := None;
     pageDimensions := Dim.mk 0 0;
     containerHeight := 0%float;
     textInputs := [];
     signatureData := None;
     signaturePosition := Pos.mk 50 50;
     history := [];
     currentStep := -1;
     tempState := None;
     pendingChanges := false;
     timeoutRef := None;
     dragListeners := [] |}.

(** *** State setters

    A setter call is queued by React and applied before the next render.
    Handlers read state through the closure of the render that created
    them and never read back what they set, so applying the queued calls
    one after the other to the current state is what the next render
    sees.  The [F] variants take an updater [prev => ...]. *)

Definition setFileUrl (v : option string) (s : State) : State :=
  mkState v (pdfBytes s) (pageDimensions s) (containerHeight s)
    (textInputs s) (signatureData s) (signaturePosition s) (history s)
    (currentStep s) (tempState s) (pendingChanges s) (timeoutRef s)
    (dragListeners s).

Definition setPdfBytes (v : option ArrayBuffer) (s : State) : State :=
  mkState (fileUrl s) v (pageDimensions s) (containerHeight s)
    (textInputs s) (signatureData s) (signaturePosition s) (history s)
    (currentStep s) (tempState s) (pendingChanges s) (timeoutRef s)
    (dragListeners s).

Definition setPageDimensions (v : Dim.t) (s : State) : State :=
  mkState (fileUrl s) (pdfBytes s) v (containerHeight s)
    (textInputs s) (signatureData s) (signaturePosition s) (history s)
    (currentStep s) (tempState s) (pendingChanges s) (timeoutRef s)
    (dragListeners s).

Definition setContainerHeight (v : number) (s : State) : State :=
  mkState (fileUrl s) (pdfBytes s) (pageDimensions s) v
    (textInputs s) (signatureData s) (signaturePosition s) (history s)
    (currentStep s) (tempState s) (pendingChanges s) (timeoutRef s)
    (dragListeners s).

Definition setTextInputs (v : list TextInput.t) (s : State) : State :=
  mkState (fileUrl s) (pdfBytes s) (pageDimensions s) (containerHeight s)
    v (signatureData s) (signaturePosition s) (history s)
    (currentStep s) (tempState s) (pendingChanges s) (timeoutRef s)
    (dragListeners s).

Definition setTextInputsF (f : list TextInput.t -> list TextInput.t)
    (s : State) : State :=
  setTextInputs (f (textInputs s)) s.

Definition setSignatureData (v : option string) (s : State) : State :=
  mkState (fileUrl s) (pdfBytes s) (pageDimensions s) (containerHeight s)
    (textInputs s) v (signaturePosition s) (history s)
    (currentStep s) (tempState s) (pendingChanges s) (timeoutRef s)
    (dragListeners s).

Definition setSignaturePosition (v : Pos.t) (s : State) : State :=
  mkState (fileUrl s) (pdfBytes s) (pageDimensions s) (containerHeight s)
    (textInputs s) (signatureData s) v (history s)
    (currentStep s) (tempState s) (pendingChanges s) (timeoutRef s)
    (dragListeners s).

Definition setHistory (v : list Snapshot.t) (s : State) : State :=
  mkState (fileUrl s) (pdfBytes s) (pageDimensions s) (containerHeight s)
    (textInputs s) (signatureData s) (signaturePosition s) v
    (currentStep s) (tempState s) (pendingChanges s) (timeoutRef s)
    (dragListeners s).

Definition setHistoryF (f : list Snapshot.t -> list Snapshot.t)
    (s : State) : State :=
  setHistory (f (history s)) s.

Definition setCurrentStep (v : Z) (s : State) : State :=
  mkState (fileUrl s) (pdfBytes s) (pageDimensions s) (containerHeight s)
    (textInputs s) (signatureData s) (signaturePosition s) (history s)
    v (tempState s) (pendingChanges s) (timeoutRef s)
    (dragListeners s).

Definition setCurrentStepF (f : Z -> Z) (s : State) : State :=
  setCurrentStep (f (currentStep s)) s.

Definition setTempState (v : option Snapshot.t) (s : State) : State :=
  mkState (fileUrl s) (pdfBytes s) (pageDimensions s) (containerHeight s)
    (textInputs s) (signatureData s) (signaturePosition s) (history s)
    (currentStep s) v (pendingChanges s) (timeoutRef s)
    (dragListeners s).

(** Assignments to the mutable cells take effect at once. *)

Definition setPendingChanges (v : bool) (s : State) : State :=
  mkState (fileUrl s) (pdfBytes s) (pageDimensions s) (containerHeight s)
    (textInputs s) (signatureData s) (signaturePosition s) (history s)
    (currentStep s) (tempState s) v (timeoutRef s)
    (dragListeners s).

Definition setTimeoutRef (v : option Timer) (s : State) : State :=
  mkState (fileUrl s) (pdfBytes s) (pageDimensions s) (containerHeight s)
    (textInputs s) (signatureData s) (signaturePosition s) (history s)
    (currentStep s) (tempState s) (pendingChanges s) v
    (dragListeners s).

Definition setDragListeners (v : list Drag) (s : State) : State :=
  mkState (fileUrl s) (pdfBytes s) (pageDimensions s) (containerHeight s)
    (textInputs s) (signatureData s) (signaturePosition s) (history s)
    (currentStep s) (tempState s) (pendingChanges s) (timeoutRef s)
    v.

(** The three cells a snapshot captures, read from a render. *)
Definition live (s : State) : Snapshot.t :=
  Snapshot.mk (textInputs s) (signatureData s) (signaturePosition s).

(** Setter calls in source order: [s |> f |> g] is [g (f s)]. *)
Notation "s |> f" := (f s) (at level 45, left associativity, only parsing).

(** What a handler makes visible outside the component state. *)
Inductive Output : Type :=
| Alert (msg : string)
| ConsoleError (msg : string)
| Uncaught (msg : string)
| MeasureScheduled (page : Dim.t)
| Download (bytes : ArrayBuffer).

(* ------------------------------------------------------------------ *)
(** ** History: [updateState], the two effects, undo and redo *)

(** [updateState(updateFn)].  [render] holds the three cells the closure
    reads; [pendingChanges.current] is read from the ref itself. *)
Definition updateState (render : Snapshot.t) (updateFn : State -> State)
    (s : State) : State :=
  let s1 :=
    if negb (pendingChanges s) then
      s |> setTempState
             (Some (Snapshot.mk (Snapshot.textInputs render)
                                (Snapshot.signatureData render)
                                (Snapshot.signaturePosition render)))
        |> setPendingChanges true
    else s in
  updateFn s1.

(** The updater both effects hand to [setHistory]:
    [prev => [...prev.slice(0, currentStep + 1), tempState]]. *)
Definition pushSnapshot (currentStep : Z) (tempState : Snapshot.t)
    (prev : list Snapshot.t) : list Snapshot.t :=
  slice0 prev (currentStep + 1) ++ [tempState].

(** The effect with dependencies
    [[textInputs, signatureData, signaturePosition, tempState]].
    [r] is the render whose closure the effect body reads, [s] the state
    its queued setter calls are applied to. *)
Definition historyEffect1 (r : State) (s : State) : State :=
  match tempState r with
  | Some t =>
      s |> setHistoryF (pushSnapshot (currentStep r) t)
        |> setCurrentStepF (fun prev => prev + 1)
        |> setTempState None
  | None => s
  end.

(** The effect with dependencies [[tempState]]. *)
Definition historyEffect2 (r : State) (s : State) : State :=
  match tempState r with
  | Some t =>
      if pendingChanges s then
        s |> setHistoryF (pushSnapshot (currentStep r) t)
          |> setCurrentStepF (fun prev => prev + 1)
          |> setTempState None
          |> setPendingChanges false
      else s
  | None => s
  end.

(** The effects of one committed render, in declaration order.  Both
    bodies do nothing unless [tempState] is an object, and a non-null
    [tempState] is always one [updateState] has just stored, which
    changes the dependencies of both. *)
Definition runEffects (r : State) : State :=
  r |> historyEffect1 r |> historyEffect2 r.

(** [applyState(state)] *)
Definition applyState (state : Snapshot.t) (s : State) : State :=
  s |> setTextInputs (Snapshot.textInputs state)
    |> setSignatureData (Snapshot.signatureData state)
    |> setSignaturePosition (Snapshot.signaturePosition state).

(** [handleUndo()].  Reading [.textInputs] of [undefined] inside
    [applyState] throws after the cursor update was queued. *)
Definition handleUndo (s : State) : State * list Output :=
  if 0 <? currentStep s then
    match index (history s) (currentStep s - 1) with
    | Some previousState =>
        (s |> setCurrentStepF (fun prev => prev - 1)
           |> applyState previousState, [])
    | None =>
        (s |> setCurrentStepF (fun prev => prev - 1), [Uncaught "TypeError"])
    end
  else (s, []).

(** [handleRedo()] *)
Definition handleRedo (s : State) : State * list Output :=
  if currentStep s <? Z.of_nat (List.length (history s)) - 1 then
    match index (history s) (currentStep s + 1) with
    | Some nextState =>
        (s |> setCurrentStepF (fun prev => prev + 1)
           |> applyState nextState, [])
    | None =>
        (s |> setCurrentStepF (fun prev => prev + 1), [Uncaught "TypeError"])
    end
  else (s, []).

(** [deleteTextInput(id)] *)
Definition deleteTextInput (id : Z) (s : State) : State :=
  updateState (live s)
    (setTextInputsF
       (filter (fun input => negb (TextInput.id input =? id))))
    s.

(** [clearAll()].  Clearing the signature pad's canvas touches no state
    of the component. *)
Definition clearAll (s : State) : State :=
  updateState (live s)
    (fun s' => s' |> setTextInputs []
                  |> setSignatureData None
                  |> setSignaturePosition (Pos.mk 50 50))
    s.

(** [previewContainerRef.current] is set exactly while the preview
    [div] is rendered, that is while [fileUrl] is truthy. *)
Definition containerMounted (s : State) : bool := truthy_opt (fileUrl s).

(** The bounding rectangle's corner a click is measured from. *)
Record Rect : Type := mkRect { left : number; top : number }.
Arguments mkRect (left top)%_float.

(** [handlePreviewClick(e)]; [now] is [Date.now()]. *)
Definition handlePreviewClick (clientX clientY : number) (rect : Rect)
    (now : Z) (s : State) : State :=
  if negb (containerMounted s) then s
  else
    updateState (live s)
      (let x := (clientX - left rect)%float in
       let y := (clientY - top rect)%float in
       setTextInputsF
         (fun prev => prev ++ [TextInput.mk now x y []]))
      s.
Arguments handlePreviewClick (clientX clientY)%_float rect now%_Z s.

(** [{ ...input, value }] on the entry called [id]. *)
Definition setValue (id : Z) (value : jsstring) (input : TextInput.t)
    : TextInput.t :=
  if TextInput.id input =? id
  then TextInput.mk (TextInput.id input) (TextInput.x input)
                    (TextInput.y input) value
  else input.

(** The [onChange] handler of a text box: the immediate update, then
    [handleTextChange(id, newValue)], which cancels the pending timer and
    arms a new one around this render's callback. *)
Definition onChange (id : Z) (newValue : jsstring) (s : State) : State :=
  s |> setTextInputsF (map (setValue id newValue))
    |> setTimeoutRef (Some (mkTimer (live s) id newValue)).

(** The debounce timer fires: the callback of the render that armed it
    runs [updateState].  A timer fires once, so none is pending after. *)
Definition debounceFire (s : State) : State :=
  match timeoutRef s with
  | Some tm =>
      s |> setTimeoutRef None
        |> updateState (tm_render tm)
             (setTextInputsF (map (setValue (tm_id tm) (tm_value tm))))
  | None => s
  end.

(* ------------------------------------------------------------------ *)
(** ** Signature: drag and capture *)

(** The rendered width of the signature image ([width: '150px'], and the
    width it is drawn with on export). *)
Definition signatureWidth : number := 150%float.

(** [handleSignatureMouseDown(e)]: the locals are captured and the two
    listeners are registered on [document]. *)
Definition handleSignatureMouseDown (clientX clientY : number) (s : State)
    : State :=
  s |> setDragListeners
         (dragListeners s ++ [mkDrag clientX clientY (signaturePosition s)]).
Arguments handleSignatureMouseDown (clientX clientY)%_float s.

(** The position one [handleMouseMove(moveEvent)] call computes, for a
    container whose bounding rectangle is [width] by [height]. *)
Definition dragPosition (d : Drag) (clientX clientY : number)
    (width height : number) : Pos.t :=
  let dx := (clientX - startX d)%float in
  let dy := (clientY - startY d)%float in
  let maxX := (width - 160)%float in
  let maxY := (height - 60)%float in
  Pos.mk (Math_max 10 (Math_min (Pos.x (initPos d) + dx) maxX))
         (Math_max 10 (Math_min (Pos.y (initPos d) + dy) maxY)).
Arguments dragPosition d (clientX clientY width height)%_float.

(** [handleMouseMove(moveEvent)] of one registered drag. *)
Definition handleMouseMove (d : Drag) (clientX clientY : number)
    (width height : number) (s : State) : State :=
  s |> setSignaturePosition (dragPosition d clientX clientY width height).
Arguments handleMouseMove d (clientX clientY width height)%_float s.

(** A [mousemove] on [document] calls every registered listener in
    registration order.  Without a mounted container the first listener's
    [getBoundingClientRect] call throws. *)
Definition mouseMove (clientX clientY : number) (width height : number)
    (s : State) : State * list Output :=
  match dragListeners s with
  | [] => (s, [])
  | _ :: _ =>
      if containerMounted s then
        (fold_left
           (fun acc d => handleMouseMove d clientX clientY width height acc)
           (dragListeners s) s, [])
      else (s, [Uncaught "TypeError"])
  end.
Arguments mouseMove (clientX clientY width height)%_float s.

(** A [mouseup] on [document]: every [handleMouseUp] removes its own pair
    of listeners; no setter is called. *)
Definition mouseUp (s : State) : State := s |> setDragListeners [].

(** What the signature pad reports when asked. *)
Record SigPad : Type := mkSigPad { isEmpty : bool; toDataURL : string }.

(** [handleCaptureSignature()]; [pad] is [sigPadRef.current]. *)
Definition handleCaptureSignature (pad : option SigPad) (s : State)
    : State * list Output :=
  match pad with
  | None => (s, [Alert "Please draw a signature first!"])
  | Some p =>
      if isEmpty p then (s, [Alert "Please draw a signature first!"])
      else
        (s |> setSignatureData (Some (toDataURL p))
           |> setSignaturePosition (Pos.mk 50 50), [])
  end.

(* ------------------------------------------------------------------ *)
(** ** The PDF collaborator, loading and export *)

(** An embedded PNG: its pixel size. *)
Record PngImage : Type := mkPng { png_width : number; png_height : number }.
Arguments mkPng (png_width png_height)%_float.

(** Calls made on the first page. *)
Inductive DrawOp : Type :=
| DrawImage (image : PngImage) (x y width height : number)
| DrawText (text : jsstring) (x y size : number) (color : number * number * number).
Arguments DrawImage image (x y width height)%_float.
Arguments DrawText text (x y size)%_float color.

(** The outcomes of the [pdf-lib] calls the component awaits; [None] is
    a rejected promise.  A loaded document is the list of its page sizes. *)
Record PdfLib : Type := mkPdfLib {
  PDFDocument_load : ArrayBuffer -> option (list Dim.t);
  embedPng : string -> option PngImage;
  save : ArrayBuffer -> list DrawOp -> option ArrayBuffer
}.

(** The selected file: its MIME type and what [arrayBuffer()] yields. *)
Record File : Type := mkFile {
  file_type : string;
  arrayBuffer : option ArrayBuffer
}.

Definition loadFailed : list Output :=
  [ConsoleError "Error loading PDF:"; Alert "Failed to load PDF"].

(** [handleFileChange(e)] run to its end; [file] is [e.target.files[0]]
    and [url] what [URL.createObjectURL] returns.  The deferred
    measurement is reported as [MeasureScheduled]. *)
Definition handleFileChange (lib : PdfLib) (file : option File)
    (url : string) (s : State) : State * list Output :=
  match file with
  | None => (s, [Alert "Please select a valid PDF file."])
  | Some f =>
      if negb (String.eqb (file_type f) "application/pdf") then
        (s, [Alert "Please select a valid PDF file."])
      else
        let s1 := s |> setHistory [] |> setCurrentStep (-1)
                    |> setTempState None in
        match arrayBuffer f with
        | None => (s1, loadFailed)
        | Some buf =>
            let s2 := s1 |> setPdfBytes (Some buf)
                        |> setFileUrl (Some url) in
            match PDFDocument_load lib buf with
            | None => (s2, loadFailed)
            | Some [] => (s2, loadFailed)
            | Some (firstPage :: _) =>
                (s2 |> setPageDimensions
                         (Dim.mk (Dim.width firstPage) (Dim.height firstPage)),
                 [MeasureScheduled firstPage])
            end
        end
  end.

(** The [setTimeout(..., 0)] callback of a successful load;
    [offsetWidth] is [None] while [previewContainerRef.current] is null. *)
Definition measureContainer (page : Dim.t) (offsetWidth : option number)
    (s : State) : State :=
  match offsetWidth with
  | Some containerWidth =>
      s |> setContainerHeight
             ((Dim.height page / Dim.width page) * containerWidth)%float
  | None => s
  end.

(** The measured size of the preview container. *)
Record Container : Type := mkContainer {
  offsetWidth : number;
  offsetHeight : number
}.
Arguments mkContainer (offsetWidth offsetHeight)%_float.

(** [convertToPdfCoordinates(x, y)]; [container] is
    [previewContainerRef.current], and reading a property of [null]
    throws ([None]). *)
Definition convertToPdfCoordinates (container : option Container)
    (pageDimensions : Dim.t) (x y : number) : option Pos.t :=
  match container with
  | None => None
  | Some c =>
      let containerWidth := offsetWidth c in
      let containerHeight := offsetHeight c in
      Some (Pos.mk
              ((x / containerWidth) * Dim.width pageDimensions)
              (Dim.height pageDimensions
               - ((y / containerHeight) * Dim.height pageDimensions)))
  end.
Arguments convertToPdfCoordinates container pageDimensions (x y)%_float.

(** The signature block of [handleSavePdf]; [None] when a call throws. *)
Definition drawSignature (lib : PdfLib) (container : option Container)
    (firstPage : option Dim.t) (s : State) : option (list DrawOp) :=
  if truthy_opt (signatureData s) then
    match signatureData s with
    | None => Some []
    | Some data =>
        match embedPng lib data with
        | None => None
        | Some pngImage =>
            match convertToPdfCoordinates container (pageDimensions s)
                    (Pos.x (signaturePosition s))
                    (Pos.y (signaturePosition s)), firstPage with
            | Some p, Some _ =>
                let h := (png_height pngImage
                          * (150 / png_width pngImage))%float in
                Some [DrawImage pngImage (Pos.x p) (Pos.y p - h) 150 h]
            | _, _ => None
            end
        end
    end
  else Some [].

(** [textInputs.forEach(({ x, y, value }) => ...)]; [None] when a call
    throws. *)
Fixpoint drawTexts (container : option Container) (pageDimensions : Dim.t)
    (firstPage : option Dim.t) (inputs : list TextInput.t)
    : option (list DrawOp) :=
  match inputs with
  | [] => Some []
  | input :: rest =>
      if negb (truthy_string (trim (TextInput.value input))) then
        drawTexts container pageDimensions firstPage rest
      else
        match convertToPdfCoordinates container pageDimensions
                (TextInput.x input) (TextInput.y input), firstPage with
        | Some p, Some _ =>
            match drawTexts container pageDimensions firstPage rest with
            | Some ops =>
                Some (DrawText (TextInput.value input) (Pos.x p) (Pos.y p)
                        18 (0, 0, 0)%float :: ops)
            | None => None
            end
        | _, _ => None
        end
  end.

Definition saveFailed : list Output :=
  [ConsoleError "Error saving PDF:"; Alert "Failed to save PDF"].

(** [handleSavePdf()].  It calls no setter: the state it returns is the
    one it was given. *)
Definition handleSavePdf (lib : PdfLib) (container : option Container)
    (s : State) : State * list Output :=
  match pdfBytes s with
  | None => (s, [Alert "No PDF loaded."])
  | Some bytes =>
      match PDFDocument_load lib bytes with
      | None => (s, saveFailed)
      | Some pages =>
          let firstPage := hd_error pages in
          match drawSignature lib container firstPage s with
          | None => (s, saveFailed)
          | Some sigOps =>
              match drawTexts container (pageDimensions s) firstPage
                      (textInputs s) with
              | None => (s, saveFailed)
              | Some textOps =>
                  match save lib bytes (sigOps ++ textOps) with
                  | Some modifiedPdfBytes => (s, [Download modifiedPdfBytes])
                  | None => (s, saveFailed)
                  end
              end
          end
      end
  end.

(* ------------------------------------------------------------------ *)
(** ** Events and the render cycle *)

(** What can happen to the component: user input, a timer firing, and
    the data each handler reads from the DOM or a collaborator. *)
Inductive Event : Type :=
| FileChange (lib : PdfLib) (file : option File) (url : string)
| Measure (page : Dim.t) (offsetWidth : option number)
| PreviewClick (clientX clientY : number) (rect : Rect) (now : Z)
| Change (id : Z) (newValue : jsstring)
| DebounceFire
| Delete (id : Z)
| Undo
| Redo
| ClearAll
| SigMouseDown (clientX clientY : number)
| MouseMove (clientX clientY width height : number)
| MouseUp
| Capture (pad : option SigPad)
| Save (lib : PdfLib) (container : option Container).
Arguments PreviewClick (clientX clientY)%_float rect now%_Z.
Arguments SigMouseDown (clientX clientY)%_float.
Arguments MouseMove (clientX clientY width height)%_float.

(** The handler an event runs. *)
Definition handle (e : Event) (s : State) : State * list Output :=
  match e with
  | FileChange lib file url => handleFileChange lib file url s
  | Measure page w => (measureContainer page w s, [])
  | PreviewClick cx cy rect now => (handlePreviewClick cx cy rect now s, [])
  | Change id v => (onChange id v s, [])
  | DebounceFire => (debounceFire s, [])
  | Delete id => (deleteTextInput id s, [])
  | Undo => handleUndo s
  | Redo => handleRedo s
  | ClearAll => (clearAll s, [])
  | SigMouseDown cx cy => (handleSignatureMouseDown cx cy s, [])
  | MouseMove cx cy w h => mouseMove cx cy w h s
  | MouseUp => (mouseUp s, [])
  | Capture pad => handleCaptureSignature pad s
  | Save lib container => handleSavePdf lib container s
  end.

(** One event: the handler runs, React renders, and the effects of that
    render run before the next event is handled.  The render the effects
    themselves cause finds [tempState] null and does nothing
    ([runEffects_settles]). *)
Definition step (e : Event) (s : State) : State :=
  runEffects (fst (handle e s)).

(** A sequence of events, oldest first. *)
Definition run (events : list Event) (s : State) : State :=
  fold_left (fun acc e => step e acc) events s.

(** The states some sequence of events leads to from the initial one. *)
Definition reachable (s : State) : Prop :=
  exists events, run events initial = s.

(** What holds of the history cells between events. *)
Record Settled (s : State) : Prop := mkSettled {
  settled_temp : tempState s = None;
  settled_pending : pendingChanges s = false;
  settled_lower : -1 <= currentStep s;
  settled_upper : currentStep s <= Z.of_nat (List.length (history s))
}.

(** The history cells after both effects have pushed [t] from a render
    whose cursor was [currentStep s]. *)
Definition recorded (t : Snapshot.t) (s : State) (s' : State) : Prop :=
  history s' = pushSnapshot (currentStep s) t
                 (pushSnapshot (currentStep s) t (history s))
  /\ currentStep s' = currentStep s + 1 + 1
  /\ tempState s' = None
  /\ pendingChanges s' = false.

(* ------------------------------------------------------------------ *)
(** ** Concrete sessions *)

(** A collaborator that parses the sample document (the empty buffer)
    and rejects every other one, the sample PDF file, and a session that
    opens it, types into a text box, adds a second box and captures a
    signature. *)
Definition sampleLib : PdfLib :=
  mkPdfLib (fun bytes => match bytes with
                         | [] => Some [Dim.mk 612 792]
                         | _ :: _ => None
                         end)
           (fun _ => Some (mkPng 500 200))
           (fun bytes _ => Some bytes).

Definition pdfFile : File := mkFile "application/pdf" (Some []).

(** A file with the PDF MIME type whose bytes do not parse. *)
Definition corruptFile : File :=
  mkFile "application/pdf" (Some [Byte.x25; Byte.x21]).

Definition openDocument : list Event :=
  [FileChange sampleLib (Some pdfFile) "blob:doc";
   Measure (Dim.mk 612 792) (Some 800%float)].

Definition annotate : list Event :=
  openDocument
  ++ [PreviewClick 110 220 (mkRect 10 20) 1700000000001;
      Change 1700000000001 (lit "Hi");
      DebounceFire;
      PreviewClick 310 420 (mkRect 10 20) 1700000000002;
      Capture (Some (mkSigPad false "data:image/png;base64,AAAA"))].


(** Two boxes placed on an opened document: two recorded actions. *)
Definition twoBoxes : list Event :=
  openDocument
  ++ [PreviewClick 110 220 (mkRect 10 20) 1700000000001;
      PreviewClick 310 420 (mkRect 10 20) 1700000000002].

(** One box placed on an opened document. *)
Definition oneBox : list Event :=
  openDocument ++ [PreviewClick 110 220 (mkRect 10 20) 1700000000001].

(** A whole drag of the signature: pointer down, the pointer positions
    reported while it moves over a [width] by [height] container, pointer
    up. *)
Definition dragGesture (down : number * number)
    (moves : list (number * number)) (width height : number)
    : list Event :=
  SigMouseDown (fst down) (snd down)
  :: map (fun m => MouseMove (fst m) (snd m) width height) moves
  ++ [MouseUp].

(** The events whose handler calls none of [setHistory],
    [setCurrentStep], [setTempState]. *)
Definition leavesHistoryAlone (e : Event) : bool :=
  match e with
  | Measure _ _ | Change _ _ | SigMouseDown _ _ | MouseMove _ _ _ _
  | MouseUp | Capture _ | Save _ _ => true
  | _ => false
  end.

(** The render on which the effects find a deletion pending. *)
Definition pendingDelete : State :=
  deleteTextInput 1700000000001 (run oneBox initial).


(** A signature captured on an opened document. *)
Definition signed : list Event :=
  openDocument
  ++ [Capture (Some (mkSigPad false "data:image/png;base64,AAAA"))].

(* ------------------------------------------------------------------ *)
(** ** Vocabulary of the statements *)

(** A value that is empty or holds white space only. *)
Definition blank (value : jsstring) : bool := forallb isWhiteSpace value.

(** The [drawText] call [handleSavePdf] makes for one text input. *)
Definition textOp (c : Container) (pageDimensions : Dim.t)
    (input : TextInput.t) : DrawOp :=
  DrawText (TextInput.value input)
    ((TextInput.x input / offsetWidth c) * Dim.width pageDimensions)
    (Dim.height pageDimensions
     - ((TextInput.y input / offsetHeight c) * Dim.height pageDimensions))
    18 (0, 0, 0)%float.

(** The [drawImage] call [handleSavePdf] makes for the signature. *)
Definition signatureOp (c : Container) (pageDimensions : Dim.t)
    (position : Pos.t) (pngImage : PngImage) : DrawOp :=
  let h := (png_height pngImage * (150 / png_width pngImage))%float in
  DrawImage pngImage
    ((Pos.x position / offsetWidth c) * Dim.width pageDimensions)
    (Dim.height pageDimensions
     - ((Pos.y position / offsetHeight c) * Dim.height pageDimensions)
     - h)
    150 h.

(** The calls made for the signature of state [s]: one when there is a
    signature and it embeds, none otherwise. *)
Definition signatureOps (lib : PdfLib) (c : Container) (s : State)
    : list DrawOp :=
  if truthy_opt (signatureData s) then
    match signatureData s with
    | Some data =>
        match embedPng lib data with
        | Some pngImage =>
            [signatureOp c (pageDimensions s) (signaturePosition s) pngImage]
        | None => []
        end
    | None => []
    end
  else [].

Definition isDrawText (op : DrawOp) : bool :=
  match op with
  | DrawText _ _ _ _ _ => true
  | DrawImage _ _ _ _ _ => false
  end.

(** The transform as the specification writes it:
    [pdfX = (x / pw) * PW], [pdfY = PH - (y / ph) * PH]. *)
Definition coordinateTransform (x y pw ph PW PH : number) : Pos.t :=
  Pos.mk ((x / pw) * PW) (PH - (y / ph) * PH).
Arguments coordinateTransform (x y pw ph PW PH)%_float.


(** Three boxes on an opened and measured document: one holding text,
    one holding white space only, one left empty. *)
Definition mixedInputs : list Event :=
  openDocument
  ++ [PreviewClick 110 220 (mkRect 10 20) 1700000000001;
      Change 1700000000001 (lit "Hi");
      PreviewClick 310 420 (mkRect 10 20) 1700000000002;
      Change 1700000000002 [0x20; 0x09; 0xA0]%N;
      PreviewClick 410 520 (mkRect 10 20) 1700000000003].

(* ------------------------------------------------------------------ *)
(** ** Vocabulary of the further properties *)

(** The events whose handler goes through [updateState] in state [s]:
    a delete, a clear, a click on a mounted preview, and the debounce
    timer when one is armed. *)
Definition records (e : Event) (s : State) : bool :=
  match e with
  | Delete _ | ClearAll => true
  | PreviewClick _ _ _ _ => containerMounted s
  | DebounceFire =>
      match timeoutRef s with Some _ => true | None => false end
  | _ => false
  end.

(** A burst of keystrokes: one [onChange] per [(id, value)]. *)
Definition typing (keys : list (Z * jsstring)) : list Event :=
  map (fun k => Change (fst k) (snd k)) keys.

(** A session whose second file selection fails to parse: the stored
    bytes are those of the file that does not load. *)
Definition afterFailedLoad : list Event :=
  twoBoxes ++ [FileChange sampleLib (Some corruptFile) "blob:bad"].

(* ------------------------------------------------------------------ *)
(** ** The canvas editor ([PDFEditor])

    The second component keeps a [fabric] canvas, the selected file and a
    busy flag.  The canvas object is created once and then changed in
    place; the component holds the only reference to it, so it is a
    value in the state here.  Awaited collaborator calls are run to their
    end, [None] standing for a rejected promise or a thrown exception. *)

Module CanvasEditor.

(** The objects the component puts on the canvas. *)
Inductive FabricObject : Type :=
| IText (text : string) (left top fontSize : number)
| SignatureGroup (left top rectWidth rectHeight : number).
Arguments IText text (left top fontSize)%_float.
Arguments SignatureGroup (left top rectWidth rectHeight)%_float.

(** What [img.set] fixes on a background image. *)
Record Background : Type := mkBackground {
  bg_scaleX : number;
  bg_scaleY : number;
  bg_left : number;
  bg_top : number
}.
Arguments mkBackground (bg_scaleX bg_scaleY bg_left bg_top)%_float.

Record Canvas : Type := mkCanvas {
  cv_width : number;
  cv_height : number;
  cv_objects : list FabricObject;
  cv_active : option FabricObject;
  cv_background : option Background
}.
Arguments mkCanvas (cv_width cv_height)%_float cv_objects cv_active
  cv_background.

(** The selected file: its name and what [arrayBuffer()] yields. *)
Record CFile : Type := mkCFile {
  cf_name : string;
  cf_arrayBuffer : option ArrayBuffer
}.

(** The options of the one [page.drawImage] call of [saveAsPdf]. *)
Record PageImage : Type := mkPageImage {
  pi_image : PngImage;
  pi_x : number;
  pi_y : number;
  pi_width : number;
  pi_height : number;
  pi_opacity : number
}.
Arguments mkPageImage pi_image
  (pi_x pi_y pi_width pi_height pi_opacity)%_float.

(** The outcomes of the calls the component makes on [pdfjs], [pdf-lib],
    [fabric] and the canvas element. *)
Record Collab : Type := mkCollab {
  (* getDocument, getPage(1), render at scale 1.5, toDataURL *)
  rasterize : ArrayBuffer -> option string;
  (* fabric.Image.fromURL: the loaded image's width and height *)
  fromURL : string -> option (number * number);
  (* canvas.toDataURL({format: 'png', quality: 1}) *)
  toDataURL : Canvas -> option string;
  load : ArrayBuffer -> option (list Dim.t);
  embedPng : string -> option PngImage;
  save : ArrayBuffer -> PageImage -> option ArrayBuffer
}.

Inductive Output : Type :=
| Alert (msg : string)
| ConsoleError (msg : string)
| Uncaught (msg : string)
| Download (name : string) (bytes : ArrayBuffer).

Record State : Type := mkState {
  canvas : option Canvas;
  pdfFile : option CFile;
  isLoading : bool
}.

Definition initial : State := mkState None None false.

Definition setCanvas (v : option Canvas) (s : State) : State :=
  mkState v (pdfFile s) (isLoading s).

Definition setPdfFile (v : option CFile) (s : State) : State :=
  mkState (canvas s) v (isLoading s).

Definition setIsLoading (v : bool) (s : State) : State :=
  mkState (canvas s) (pdfFile s) v.

(** The mount effect: [new fabric.Canvas(..., { width: 800, height: 1000 })]
    then [setCanvas]. *)
Definition mount (s : State) : State :=
  s |> setCanvas (Some (mkCanvas 800 1000 [] None None)).

(** The callback of the placeholder effect: the image is stretched to
    the canvas. *)
Definition placeholderLoaded (imgWidth imgHeight : number) (s : State)
    : State :=
  match canvas s with
  | Some c =>
      s |> setCanvas
             (Some (mkCanvas (cv_width c) (cv_height c) (cv_objects c)
                      (cv_active c)
                      (Some (mkBackground (cv_width c / imgWidth)
                               (cv_height c / imgHeight) 0 0))))
  | None => s
  end.

(** [convertPdfToImage(file)]: the data URL or [null], with the busy flag
    raised at the start and lowered in [finally]. *)
Arguments placeholderLoaded (imgWidth imgHeight)%_float s.

Definition convertPdfToImage (io : Collab) (file : option CFile)
    (s : State) : option string * State * list Output :=
  match file with
  | None => (None, s, [])
  | Some f =>
      let s1 := s |> setIsLoading true in
      let failed :=
        (None, s1 |> setIsLoading false,
         [ConsoleError "PDF conversion error:";
          Alert "Failed to process PDF"]) in
      match cf_arrayBuffer f with
      | None => failed
      | Some buf =>
          match rasterize io buf with
          | None => failed
          | Some dataUrl => (Some dataUrl, s1 |> setIsLoading false, [])
          end
      end
  end.

(** The placement [loadBackground] computes for an image. *)
Definition fitBackground (c : Canvas) (imgWidth imgHeight : number)
    : Background :=
  let scale :=
    Math_min (cv_width c / imgWidth)%float (cv_height c / imgHeight)%float in
  mkBackground scale scale
    ((cv_width c - imgWidth * scale) / 2)
    ((cv_height c - imgHeight * scale) / 2).
Arguments fitBackground c (imgWidth imgHeight)%_float.

(** [loadBackground(url)] with its image callback. *)
Definition loadBackground (io : Collab) (url : string) (s : State)
    : State :=
  match canvas s with
  | None => s
  | Some c =>
      if String.eqb url EmptyString then s
      else
        match fromURL io url with
        | None => s
        | Some (imgWidth, imgHeight) =>
            s |> setCanvas
                   (Some (mkCanvas (cv_width c) (cv_height c)
                            (cv_objects c) (cv_active c)
                            (Some (fitBackground c imgWidth imgHeight))))
        end
  end.

(** [handleFileChange(e)] run to its end; [file] is [e.target.files[0]]. *)
Definition handleFileChange (io : Collab) (file : option CFile)
    (s : State) : State * list Output :=
  match file with
  | None => (s, [])
  | Some f =>
      let s1 := s |> setPdfFile (Some f) in
      match convertPdfToImage io (Some f) s1 with
      | (imageUrl, s2, out) =>
          match imageUrl, canvas s with
          | Some url, Some _ =>
              if String.eqb url EmptyString then (s2, out)
              else (loadBackground io url s2, out)
          | _, _ => (s2, out)
          end
      end
  end.

(** [addText()] *)
Definition addText (s : State) : State :=
  match canvas s with
  | None => s
  | Some c =>
      let text := IText "Edit text"%string 100 100 24 in
      s |> setCanvas
             (Some (mkCanvas (cv_width c) (cv_height c)
                      (cv_objects c ++ [text]) (Some text)
                      (cv_background c)))
  end.

(** [addSignature()] *)
Definition addSignature (s : State) : State :=
  match canvas s with
  | None => s
  | Some c =>
      let group := SignatureGroup 200 200 150 50 in
      s |> setCanvas
             (Some (mkCanvas (cv_width c) (cv_height c)
                      (cv_objects c ++ [group]) (Some group)
                      (cv_background c)))
  end.

Definition saveFailed : list Output :=
  [ConsoleError "Error saving PDF:"; Alert "Failed to save PDF"].

(** The [try] block of [saveAsPdf]: the bytes to download, or [None] when
    a call throws. *)
Definition savedBytes (io : Collab) (c : Canvas) (f : CFile)
    : option ArrayBuffer :=
  match toDataURL io c with
  | None => None
  | Some canvasImage =>
      match cf_arrayBuffer f with
      | None => None
      | Some buf =>
          match load io buf with
          | None => None
          | Some [] => None
          | Some (page :: _) =>
              match embedPng io canvasImage with
              | None => None
              | Some pngImage =>
                  save io buf
                    (mkPageImage pngImage 0 0 (Dim.width page)
                       (Dim.height page) 1)
              end
          end
      end
  end.

(** [saveAsPdf()] run to its end. *)
Definition saveAsPdf (io : Collab) (s : State) : State * list Output :=
  match canvas s, pdfFile s with
  | Some c, Some f =>
      let s1 := s |> setIsLoading true in
      match savedBytes io c f with
      | Some pdfBytes =>
          (s1 |> setIsLoading false,
           [Download (String.append "edited_" (cf_name f)) pdfBytes])
      | None => (s1 |> setIsLoading false, saveFailed)
      end
  | _, _ => (s, [])
  end.

(** [testPdfRead(file)], the handler the file input's [onChange] is
    given.  It is called with the change event, which has no
    [arrayBuffer] method: the call throws inside the async function. *)
Definition testPdfRead (s : State) : State * list Output :=
  (s, [Uncaught "TypeError"]).

(** The [disabled] attribute shared by the three buttons. *)
Definition buttonsDisabled (s : State) : bool :=
  match canvas s with None => true | Some _ => false end
  || isLoading s
  || match pdfFile s with None => true | Some _ => false end.

(** What the rendered page lets happen: the mount effect, the placeholder
    image arriving, a file picked in the input, and clicks on the three
    buttons, which a disabled button does not deliver. *)
Inductive UIEvent : Type :=
| Mount
| PlaceholderLoaded (imgWidth imgHeight : number)
| FileInputChange
| ClickAddText
| ClickAddSignature
| ClickSave (io : Collab).
Arguments PlaceholderLoaded (imgWidth imgHeight)%_float.

Definition uiStep (e : UIEvent) (s : State) : State * list Output :=
  match e with
  | Mount => (mount s, [])
  | PlaceholderLoaded w h => (placeholderLoaded w h s, [])
  | FileInputChange => testPdfRead s
  | ClickAddText => if buttonsDisabled s then (s, []) else (addText s, [])
  | ClickAddSignature =>
      if buttonsDisabled s then (s, []) else (addSignature s, [])
  | ClickSave io => if buttonsDisabled s then (s, []) else saveAsPdf io s
  end.

(** A session: the state it ends in and everything it put out. *)
Fixpoint uiRun (events : list UIEvent) (s : State)
    : State * list Output :=
  match events with
  | [] => (s, [])
  | e :: rest =>
      let (s1, out1) := uiStep e s in
      let (s2, out2) := uiRun rest s1 in
      (s2, out1 ++ out2)
  end.

(** A collaborator for which every call succeeds. *)
Definition okCollab : Collab :=
  mkCollab (fun _ => Some "data:image/png;base64,PAGE"%string)
           (fun _ => Some (918, 1188)%float)
           (fun _ => Some "data:image/png;base64,CANVAS"%string)
           (fun _ => Some [Dim.mk 612 792])
           (fun _ => Some (mkPng 800 1000))
           (fun bytes _ => Some bytes).

End CanvasEditor.
(* ------------------------------------------------------------------ *)
(** ** The render cycle settles *)

Lemma runEffects_idle (s : State) :
  tempState s = None -> runEffects s = s.
Proof.
  intros H. unfold runEffects, historyEffect1, historyEffect2.
  rewrite H. reflexivity.
Qed.

(** With a mutation pending, both effects fire on the same render. *)
Lemma runEffects_pending (s : State) (t : Snapshot.t) :
  tempState s = Some t ->
  pendingChanges s = true ->
  runEffects s =
    s |> setHistory
           (pushSnapshot (currentStep s) t
              (pushSnapshot (currentStep s) t (history s)))
      |> setCurrentStep (currentStep s + 1 + 1)
      |> setTempState None
      |> setPendingChanges false.
Proof.
  intros Ht Hp. destruct s; simpl in *; subst.
  reflexivity.
Qed.

Lemma runEffects_temp (s : State) : tempState (runEffects s) = None.
Proof.
  unfold runEffects, historyEffect1, historyEffect2.
  destruct (tempState s) eqn:Ht; simpl.
  - destruct (pendingChanges s); reflexivity.
  - exact Ht.
Qed.

(** The render the effects cause finds nothing left to do. *)
Lemma runEffects_settles (s : State) :
  runEffects (runEffects s) = runEffects s.
Proof. apply runEffects_idle, runEffects_temp. Qed.

(* ------------------------------------------------------------------ *)
(** ** Array lemmas for the history updater *)

Lemma slice0_nonneg {A : Type} (arr : list A) (e : Z) :
  0 <= e -> slice0 arr e = firstn (Z.to_nat e) arr.
Proof.
  intros He. unfold slice0.
  destruct (e <? 0) eqn:E; [apply Z.ltb_lt in E; lia|].
  destruct (Z.min_spec e (Z.of_nat (List.length arr))) as [[Hlt ->]|[Hge ->]].
  - reflexivity.
  - rewrite Nat2Z.id.
    rewrite firstn_all. symmetry. apply firstn_all2. lia.
Qed.

(** Applying the updater twice with the same closure: the slot at
    [currentStep + 1] is written once or twice, the array ends up
    [currentStep + 2] long. *)
Lemma pushSnapshot_twice (c : Z) (t : Snapshot.t) (h : list Snapshot.t) :
  -1 <= c <= Z.of_nat (List.length h) ->
  pushSnapshot c t (pushSnapshot c t h)
  = firstn (Z.to_nat (c + 1)) (h ++ [t]) ++ [t].
Proof.
  intros Hc. unfold pushSnapshot.
  rewrite !slice0_nonneg by lia.
  f_equal.
  destruct (Z.eq_dec c (Z.of_nat (List.length h))) as [E|E].
  - assert (Hn : Z.to_nat (c + 1) = S (List.length h)) by lia.
    rewrite Hn.
    rewrite (firstn_all2 (n := S (List.length h)) h) by lia.
    reflexivity.
  - assert (Hn : (Z.to_nat (c + 1) <= List.length h)%nat) by lia.
    rewrite (firstn_app (Z.to_nat (c + 1)) (firstn (Z.to_nat (c + 1)) h) [t]).
    rewrite (firstn_app (Z.to_nat (c + 1)) h [t]).
    rewrite firstn_firstn, Nat.min_id.
    rewrite length_firstn.
    replace (Z.to_nat (c + 1) - Nat.min (Z.to_nat (c + 1)) (List.length h))%nat
      with 0%nat by lia.
    replace (Z.to_nat (c + 1) - List.length h)%nat with 0%nat by lia.
    reflexivity.
Qed.

Lemma pushSnapshot_twice_length (c : Z) (t : Snapshot.t)
    (h : list Snapshot.t) :
  -1 <= c <= Z.of_nat (List.length h) ->
  Z.of_nat (List.length (pushSnapshot c t (pushSnapshot c t h))) = c + 2.
Proof.
  intros Hc. rewrite pushSnapshot_twice by exact Hc.
  rewrite length_app, length_firstn, length_app. simpl. lia.
Qed.

Lemma pushSnapshot_twice_last (c : Z) (t : Snapshot.t)
    (h : list Snapshot.t) :
  -1 <= c <= Z.of_nat (List.length h) ->
  index (pushSnapshot c t (pushSnapshot c t h)) (c + 1) = Some t.
Proof.
  intros Hc. rewrite pushSnapshot_twice by exact Hc.
  unfold index.
  destruct (c + 1 <? 0) eqn:E; [apply Z.ltb_lt in E; lia|].
  rewrite nth_error_app2; rewrite length_firstn, length_app; simpl; [|lia].
  replace (Z.to_nat (c + 1)
           - Nat.min (Z.to_nat (c + 1)) (List.length h + 1))%nat
    with 0%nat by lia.
  reflexivity.
Qed.

(* ------------------------------------------------------------------ *)
(** ** What one recorded action leaves behind *)


Ltac settled_cells s H :=
  destruct H as [Ht Hp Hl Hu]; destruct s; simpl in *; subst.

Lemma step_Delete (id : Z) (s : State) :
  Settled s ->
  recorded (live s) s (step (Delete id) s)
  /\ textInputs (step (Delete id) s)
     = filter (fun input => negb (TextInput.id input =? id)) (textInputs s)
  /\ signatureData (step (Delete id) s) = signatureData s
  /\ signaturePosition (step (Delete id) s) = signaturePosition s.
Proof.
  intros H. settled_cells s H. unfold recorded. simpl. auto.
Qed.

Lemma step_ClearAll (s : State) :
  Settled s ->
  recorded (live s) s (step ClearAll s)
  /\ live (step ClearAll s) = Snapshot.mk [] None (Pos.mk 50 50).
Proof.
  intros H. settled_cells s H. unfold recorded. simpl. auto.
Qed.

Lemma step_PreviewClick (cx cy : number) (rect : Rect) (now : Z)
    (s : State) :
  Settled s ->
  containerMounted s = true ->
  recorded (live s) s (step (PreviewClick cx cy rect now) s)
  /\ live (step (PreviewClick cx cy rect now) s)
     = Snapshot.mk
         (textInputs s
          ++ [TextInput.mk now (cx - left rect) (cy - top rect) []])
         (signatureData s) (signaturePosition s).
Proof.
  intros H Hm. unfold step, handle, handlePreviewClick.
  rewrite Hm. settled_cells s H. unfold recorded. simpl. auto.
Qed.

Lemma step_DebounceFire (tm : Timer) (s : State) :
  Settled s ->
  timeoutRef s = Some tm ->
  recorded (tm_render tm) s (step DebounceFire s)
  /\ textInputs (step DebounceFire s)
     = map (setValue (tm_id tm) (tm_value tm)) (textInputs s).
Proof.
  intros H Htm. settled_cells s H. destruct tm as [[ti sd sp] i v].
  unfold recorded. simpl. auto.
Qed.

(** Every event leaves the history cells settled. *)
Lemma step_settled (e : Event) (s : State) :
  Settled s -> Settled (step e s).
Proof.
  intros H.
  assert (Hrec : forall t s', recorded t s s' -> Settled s').
  { intros t s' (Hh & Hc & Ht & Hp). destruct H as [_ _ Hl Hu].
    constructor; try assumption; [lia|].
    rewrite Hh, pushSnapshot_twice_length by lia. lia. }
  assert (Hsame : forall s', history s' = history s ->
                  currentStep s' = currentStep s ->
                  tempState s' = None -> pendingChanges s' = false ->
                  Settled s').
  { intros s' Hh Hc Ht Hp. destruct H as [_ _ Hl Hu].
    constructor; try assumption; rewrite Hc; [|rewrite Hh]; assumption. }
  destruct e.
  - (* FileChange *)
    unfold step, handle, handleFileChange.
    destruct file as [f|]; [|rewrite runEffects_idle by apply H; exact H].
    destruct (negb (String.eqb (file_type f) "application/pdf"));
      [rewrite runEffects_idle by apply H; exact H|].
    destruct (arrayBuffer f) as [buf|];
      [destruct (PDFDocument_load lib buf) as [[|p ps]|]|];
      simpl; rewrite runEffects_idle by reflexivity;
      (constructor; simpl; [reflexivity|apply H|lia|lia]).
  - (* Measure *)
    unfold step, handle, measureContainer.
    destruct offsetWidth0; simpl;
      rewrite runEffects_idle by apply H; apply Hsame; solve [reflexivity|apply H].
  - (* PreviewClick *)
    destruct (containerMounted s) eqn:Hm.
    + eapply Hrec. apply (step_PreviewClick clientX clientY rect now s H Hm).
    + unfold step, handle, handlePreviewClick. rewrite Hm. simpl.
      rewrite runEffects_idle by apply H. exact H.
  - (* Change *)
    unfold step, handle, onChange. simpl.
    rewrite runEffects_idle by apply H.
    apply Hsame; solve [reflexivity|apply H].
  - (* DebounceFire *)
    destruct (timeoutRef s) as [tm|] eqn:Htm.
    + eapply Hrec. apply (step_DebounceFire tm s H Htm).
    + unfold step, handle, debounceFire. rewrite Htm. simpl.
      rewrite runEffects_idle by apply H. exact H.
  - (* Delete *)
    eapply Hrec. apply (step_Delete id s H).
  - (* Undo *)
    unfold step, handle, handleUndo.
    destruct (0 <? currentStep s) eqn:E;
      [|simpl; rewrite runEffects_idle by apply H; exact H].
    apply Z.ltb_lt in E.
    destruct (index (history s) (currentStep s - 1)); simpl;
      rewrite runEffects_idle by apply H;
      (constructor; simpl; [apply H|apply H|lia|destruct H; lia]).
  - (* Redo *)
    unfold step, handle, handleRedo.
    destruct (currentStep s <? Z.of_nat (List.length (history s)) - 1) eqn:E;
      [|simpl; rewrite runEffects_idle by apply H; exact H].
    apply Z.ltb_lt in E.
    destruct (index (history s) (currentStep s + 1)); simpl;
      rewrite runEffects_idle by apply H;
      (constructor; simpl; [apply H|apply H|destruct H; lia|lia]).
  - (* ClearAll *)
    eapply Hrec. apply (step_ClearAll s H).
  - (* SigMouseDown *)
    unfold step, handle, handleSignatureMouseDown. simpl.
    rewrite runEffects_idle by apply H.
    apply Hsame; solve [reflexivity|apply H].
  - (* MouseMove *)
    unfold step, handle, mouseMove.
    destruct (dragListeners s) as [|d ds] eqn:Hd;
      [simpl; rewrite runEffects_idle by apply H; exact H|].
    destruct (containerMounted s);
      [|simpl; rewrite runEffects_idle by apply H; exact H].
    cbn [fst].
    assert (Hfold : forall l acc,
      Settled acc ->
      Settled (fold_left
        (fun acc0 d0 => handleMouseMove d0 clientX clientY width height acc0)
        l acc)).
    { induction l as [|d0 l IH]; intros acc Hacc; simpl; [exact Hacc|].
      apply IH. destruct Hacc. constructor; assumption. }
    rewrite runEffects_idle; [apply Hfold; exact H|].
    apply (Hfold (d :: ds) s H).
  - (* MouseUp *)
    unfold step, handle, mouseUp. simpl.
    rewrite runEffects_idle by apply H.
    apply Hsame; solve [reflexivity|apply H].
  - (* Capture *)
    unfold step, handle, handleCaptureSignature.
    destruct pad as [p|]; [destruct (isEmpty p)|]; simpl;
      rewrite runEffects_idle by apply H;
      apply Hsame; solve [reflexivity|apply H].
  - (* Save *)
    unfold step, handle.
    assert (Hs : fst (handleSavePdf lib container s) = s).
    { unfold handleSavePdf.
      destruct (pdfBytes s); [|reflexivity].
      destruct (PDFDocument_load lib a); [|reflexivity].
      destruct (drawSignature lib container (hd_error l) s); [|reflexivity].
      destruct (drawTexts container (pageDimensions s) (hd_error l)
                  (textInputs s)); [|reflexivity].
      destruct (save lib a (l0 ++ l1)); reflexivity. }
    rewrite Hs, runEffects_idle by apply H. exact H.
Qed.

Lemma initial_settled : Settled initial.
Proof. constructor; simpl; [reflexivity|reflexivity|lia|lia]. Qed.

Lemma run_settled (events : list Event) (s : State) :
  Settled s -> Settled (run events s).
Proof.
  revert s. induction events as [|e events IH]; intros s H; simpl.
  - exact H.
  - apply IH, step_settled, H.
Qed.

Lemma reachable_settled (s : State) : reachable s -> Settled s.
Proof.
  intros [events <-]. apply run_settled, initial_settled.
Qed.

(* ------------------------------------------------------------------ *)
(** ** Undo after a recorded action *)

(** After an action recorded from a settled state, [handleUndo] applies
    the snapshot taken before the action. *)
Lemma undo_recorded (t : Snapshot.t) (s s' : State) :
  Settled s ->
  recorded t s s' ->
  step Undo s' = (s' |> setCurrentStep (currentStep s + 1) |> applyState t).
Proof.
  intros [_ _ Hl Hu] (Hh & Hc & Ht & Hp).
  unfold step, handle, handleUndo.
  assert (E : (0 <? currentStep s') = true) by (apply Z.ltb_lt; lia).
  rewrite E, Hh, Hc.
  replace (currentStep s + 1 + 1 - 1) with (currentStep s + 1) by lia.
  rewrite pushSnapshot_twice_last by lia.
  cbn [fst]. rewrite runEffects_idle by exact Ht.
  unfold setCurrentStepF. rewrite Hc.
  replace (currentStep s + 1 + 1 - 1) with (currentStep s + 1) by lia.
  reflexivity.
Qed.

Lemma live_applyState (t : Snapshot.t) (s : State) :
  live (applyState t s) = t.
Proof. destruct t; reflexivity. Qed.

(** C4: in every reachable state, [clearAll()] empties the three
    annotation cells, and a following [handleUndo()] puts back exactly the
    text inputs, the signature data and the signature position that were
    live before [clearAll()]. *)
Theorem clearAll_then_undo_restores (s : State) :
  reachable s ->
  live (step ClearAll s) = Snapshot.mk [] None (Pos.mk 50 50)
  /\ live (run [ClearAll; Undo] s) = live s.
Proof.
  intros Hr. apply reachable_settled in Hr.
  destruct (step_ClearAll s Hr) as [Hrec Hlive].
  split; [exact Hlive|].
  simpl. rewrite (undo_recorded (live s) s _ Hr Hrec).
  apply live_applyState.
Qed.


Lemma clearAll_then_undo_restores_witness :
  reachable (run annotate initial)
  /\ live (step ClearAll (run annotate initial))
     = Snapshot.mk [] None (Pos.mk 50 50)
  /\ live (run [ClearAll; Undo] (run annotate initial))
     = live (run annotate initial).
Proof.
  split.
  - exists annotate. reflexivity.
  - apply (clearAll_then_undo_restores (run annotate initial)).
    exists annotate. reflexivity.
Defined.

(* ------------------------------------------------------------------ *)
(** ** Events that bypass [updateState] *)

Lemma handleSavePdf_state (lib : PdfLib) (container : option Container)
    (s : State) :
  fst (handleSavePdf lib container s) = s.
Proof.
  unfold handleSavePdf.
  destruct (pdfBytes s) as [bytes|]; [|reflexivity].
  destruct (PDFDocument_load lib bytes) as [pages|]; [|reflexivity].
  destruct (drawSignature lib container (hd_error pages) s); [|reflexivity].
  destruct (drawTexts container (pageDimensions s) (hd_error pages)
              (textInputs s)) as [textOps|]; [|reflexivity].
  destruct (save lib bytes (l ++ textOps)); reflexivity.
Qed.

Lemma fold_handleMouseMove_history (cx cy w h : number) (l : list Drag)
    (s : State) :
  let s' := fold_left (fun acc d => handleMouseMove d cx cy w h acc) l s in
  history s' = history s /\ currentStep s' = currentStep s
  /\ tempState s' = tempState s.
Proof.
  revert s. induction l as [|d l IH]; intros s; simpl; [auto|].
  destruct (IH (handleMouseMove d cx cy w h s)) as (H1 & H2 & H3).
  simpl in *. auto.
Qed.

Lemma step_leavesHistoryAlone (e : Event) (s : State) :
  Settled s ->
  leavesHistoryAlone e = true ->
  history (step e s) = history s /\ currentStep (step e s) = currentStep s.
Proof.
  intros H He. pose proof (settled_temp s H) as Ht.
  destruct e; try discriminate He; unfold step, handle.
  - unfold measureContainer. destruct offsetWidth0; simpl;
      rewrite runEffects_idle by exact Ht; auto.
  - cbn [fst]. rewrite runEffects_idle by exact Ht. auto.
  - cbn [fst]. rewrite runEffects_idle by exact Ht. auto.
  - unfold mouseMove. destruct (dragListeners s) as [|d ds];
      [cbn [fst]; rewrite runEffects_idle by exact Ht; auto|].
    destruct (containerMounted s);
      [|cbn [fst]; rewrite runEffects_idle by exact Ht; auto].
    cbn [fst].
    destruct (fold_handleMouseMove_history clientX clientY width height
                (d :: ds) s) as (H1 & H2 & H3).
    rewrite runEffects_idle by (rewrite H3; exact Ht). auto.
  - cbn [fst]. rewrite runEffects_idle by exact Ht. auto.
  - unfold handleCaptureSignature.
    destruct pad as [p|]; [destruct (isEmpty p)|]; cbn [fst];
      rewrite runEffects_idle by exact Ht; auto.
  - rewrite handleSavePdf_state, runEffects_idle by exact Ht. auto.
Qed.

Lemma run_leavesHistoryAlone (events : list Event) (s : State) :
  Settled s ->
  forallb leavesHistoryAlone events = true ->
  history (run events s) = history s
  /\ currentStep (run events s) = currentStep s.
Proof.
  revert s. induction events as [|e events IH]; intros s H Hall; simpl.
  - auto.
  - simpl in Hall. apply andb_true_iff in Hall as [He Hall].
    destruct (step_leavesHistoryAlone e s H He) as [H1 H2].
    destruct (IH (step e s) (step_settled e s H) Hall) as [H3 H4].
    rewrite H3, H4. auto.
Qed.

Lemma dragGesture_leavesHistoryAlone (down : number * number)
    (moves : list (number * number)) (w h : number) :
  forallb leavesHistoryAlone (dragGesture down moves w h) = true.
Proof.
  unfold dragGesture. simpl. rewrite forallb_app. simpl.
  rewrite andb_true_r. induction moves as [|m moves IH]; simpl; auto.
Qed.

(* ------------------------------------------------------------------ *)
(** ** The history cursor *)

(** After a recorded action the cursor equals the length of [history]:
    it indexes one past the last snapshot. *)
Lemma recorded_cursor_past_end (t : Snapshot.t) (s s' : State) :
  Settled s ->
  recorded t s s' ->
  currentStep s' = Z.of_nat (List.length (history s')).
Proof.
  intros [_ _ Hl Hu] (Hh & Hc & _ & _).
  rewrite Hh, pushSnapshot_twice_length by lia. lia.
Qed.

(** Hence a redo straight after the undo of a recorded action finds
    [currentStep < history.length - 1] false and does nothing. *)
Lemma redo_after_undo_noop (t : Snapshot.t) (s s' : State) :
  Settled s ->
  recorded t s s' ->
  step Redo (step Undo s') = step Undo s'.
Proof.
  intros Hs Hrec.
  pose proof (recorded_cursor_past_end t s s' Hs Hrec) as Hend.
  rewrite (undo_recorded t s s' Hs Hrec).
  destruct Hrec as (Hh & Hc & Ht & Hp).
  unfold step at 1. unfold handle, handleRedo. simpl.
  assert (E : (currentStep s + 1 <? Z.of_nat (List.length (history s')) - 1)
              = false) by (apply Z.ltb_ge; lia).
  rewrite E. cbn [fst]. apply runEffects_idle. simpl. exact Ht.
Qed.

(** C8: the state reached by opening a document and placing one text box
    is reachable, has a non-empty [history] (one snapshot), and its
    [currentStep] is 1, outside [0 <= currentStep < history.length]. *)
Theorem cursor_invariant_violated :
  exists s : State,
    reachable s
    /\ history s <> []
    /\ List.length (history s) = 1%nat
    /\ currentStep s = 1
    /\ ~ (0 <= currentStep s < Z.of_nat (List.length (history s))).
Proof.
  exists (run oneBox initial).
  split; [exists oneBox; reflexivity|].
  split; [vm_compute; discriminate|].
  split; [vm_compute; reflexivity|].
  split; [vm_compute; reflexivity|].
  vm_compute. intros [_ H]. discriminate H.
Qed.

(** C2: when a mutation is pending on a render ([tempState] holds a
    snapshot and [pendingChanges.current] is set), the effects of that
    render advance [currentStep] by two, not one; [history] ends exactly
    at the old cursor plus two with the snapshot in its last slot, and
    when the cursor already stood at [history.length] the snapshot is
    appended twice. *)
Theorem commit_advances_cursor_twice (s : State) (t : Snapshot.t) :
  tempState s = Some t ->
  pendingChanges s = true ->
  -1 <= currentStep s <= Z.of_nat (List.length (history s)) ->
  currentStep (runEffects s) = currentStep s + 2
  /\ Z.of_nat (List.length (history (runEffects s))) = currentStep s + 2
  /\ index (history (runEffects s)) (currentStep s + 1) = Some t
  /\ (currentStep s = Z.of_nat (List.length (history s)) ->
      history (runEffects s) = history s ++ [t; t]).
Proof.
  intros Ht Hp Hc. rewrite (runEffects_pending s t Ht Hp). simpl.
  split; [lia|].
  split; [apply pushSnapshot_twice_length; exact Hc|].
  split; [apply pushSnapshot_twice_last; exact Hc|].
  intros E. rewrite pushSnapshot_twice by exact Hc.
  replace (Z.to_nat (currentStep s + 1))
    with (List.length (history s ++ [t])) by (rewrite length_app; simpl; lia).
  rewrite firstn_all, <- app_assoc. reflexivity.
Qed.

Lemma commit_advances_cursor_twice_witness :
  (tempState pendingDelete = Some (live (run oneBox initial))
   /\ pendingChanges pendingDelete = true
   /\ -1 <= currentStep pendingDelete
         <= Z.of_nat (List.length (history pendingDelete)))
  /\ currentStep (runEffects pendingDelete) = currentStep pendingDelete + 2
  /\ Z.of_nat (List.length (history (runEffects pendingDelete)))
     = currentStep pendingDelete + 2
  /\ index (history (runEffects pendingDelete))
           (currentStep pendingDelete + 1)
     = Some (live (run oneBox initial))
  /\ (currentStep pendingDelete
      = Z.of_nat (List.length (history pendingDelete)) ->
      history (runEffects pendingDelete)
      = history pendingDelete
        ++ [live (run oneBox initial); live (run oneBox initial)]).
Proof.
  assert (H1 : tempState pendingDelete = Some (live (run oneBox initial)))
    by (vm_compute; reflexivity).
  assert (H2 : pendingChanges pendingDelete = true)
    by (vm_compute; reflexivity).
  assert (H3 : -1 <= currentStep pendingDelete
               <= Z.of_nat (List.length (history pendingDelete)))
    by (vm_compute; split; discriminate).
  exact (conj (conj H1 (conj H2 H3))
              (commit_advances_cursor_twice pendingDelete _ H1 H2 H3)).
Defined.

(** C1: with N = 2 recorded actions (two boxes placed) and k = 1, the
    cursor after the undo is 2, not N-1-k = 0; the live state after the
    undo is not the snapshot at index 0; the redo does nothing, so the
    live state after undo and redo is not the state before the undo. *)
Theorem undo_redo_roundtrip_fails :
  let s2 := run twoBoxes initial in
  currentStep s2 = 3
  /\ currentStep (run [Undo] s2) = 2
  /\ index (history (run [Undo] s2)) 0 <> Some (live (run [Undo] s2))
  /\ run [Undo; Redo] s2 = run [Undo] s2
  /\ live (run [Undo; Redo] s2) <> live s2.
Proof.
  intros s2.
  split; [vm_compute; reflexivity|].
  split; [vm_compute; reflexivity|].
  split.
  { intros H.
    apply (f_equal (fun o => match o with
                             | Some t => List.length (Snapshot.textInputs t)
                             | None => 0%nat
                             end)) in H.
    vm_compute in H. discriminate H. }
  split; [vm_compute; reflexivity|].
  intros H.
  apply (f_equal (fun t => List.length (Snapshot.textInputs t))) in H.
  vm_compute in H. discriminate H.
Qed.

(** C3: in a reachable state, capturing a signature and a whole drag of
    the signature (pointer down, any pointer moves, pointer up) leave
    [history] and [currentStep] as they were, so neither is recorded at
    all; deleting a text box and the debounced text edit advance
    [currentStep] by two. *)
Theorem signature_actions_not_recorded (s : State) :
  reachable s ->
  (forall pad,
      history (step (Capture pad) s) = history s
      /\ currentStep (step (Capture pad) s) = currentStep s)
  /\ (forall down moves w h,
      history (run (dragGesture down moves w h) s) = history s
      /\ currentStep (run (dragGesture down moves w h) s) = currentStep s)
  /\ (forall id, currentStep (step (Delete id) s) = currentStep s + 2)
  /\ (forall tm, timeoutRef s = Some tm ->
      currentStep (step DebounceFire s) = currentStep s + 2).
Proof.
  intros Hr. apply reachable_settled in Hr.
  split; [intros pad; apply step_leavesHistoryAlone; [exact Hr|reflexivity]|].
  split.
  { intros down moves w h. apply run_leavesHistoryAlone; [exact Hr|].
    apply dragGesture_leavesHistoryAlone. }
  split.
  { intros id. destruct (step_Delete id s Hr) as [(_ & Hc & _) _].
    rewrite Hc. lia. }
  intros tm Htm. destruct (step_DebounceFire tm s Hr Htm) as [(_ & Hc & _) _].
  rewrite Hc. lia.
Qed.

Lemma signature_actions_not_recorded_witness :
  reachable (run oneBox initial)
  /\ (forall pad,
      history (step (Capture pad) (run oneBox initial))
      = history (run oneBox initial)
      /\ currentStep (step (Capture pad) (run oneBox initial))
         = currentStep (run oneBox initial))
  /\ (forall down moves w h,
      history (run (dragGesture down moves w h) (run oneBox initial))
      = history (run oneBox initial)
      /\ currentStep (run (dragGesture down moves w h) (run oneBox initial))
         = currentStep (run oneBox initial))
  /\ (forall id,
      currentStep (step (Delete id) (run oneBox initial))
      = currentStep (run oneBox initial) + 2)
  /\ (forall tm, timeoutRef (run oneBox initial) = Some tm ->
      currentStep (step DebounceFire (run oneBox initial))
      = currentStep (run oneBox initial) + 2).
Proof.
  assert (Hr : reachable (run oneBox initial))
    by (exists oneBox; reflexivity).
  exact (conj Hr (signature_actions_not_recorded (run oneBox initial) Hr)).
Defined.

(* ------------------------------------------------------------------ *)
(** ** Export: which text inputs are drawn *)

Lemma trimStart_blank (s : jsstring) : blank (trimStart s) = blank s.
Proof.
  unfold blank. induction s as [|c s IH]; [reflexivity|].
  cbn [trimStart forallb].
  destruct (isWhiteSpace c) eqn:E; cbn [forallb andb].
  - exact IH.
  - rewrite E. reflexivity.
Qed.

Lemma blank_rev (s : jsstring) : blank (rev s) = blank s.
Proof.
  unfold blank. induction s as [|c s IH]; [reflexivity|].
  cbn [rev forallb].
  rewrite forallb_app, IH. cbn [forallb].
  rewrite andb_true_r. apply andb_comm.
Qed.

Lemma trimStart_nil (s : jsstring) :
  truthy_string (trimStart s) = negb (blank s).
Proof.
  unfold blank. induction s as [|c s IH]; [reflexivity|].
  cbn [trimStart forallb].
  destruct (isWhiteSpace c) eqn:E; cbn [andb negb truthy_string].
  - exact IH.
  - reflexivity.
Qed.

Lemma truthy_rev (s : jsstring) : truthy_string (rev s) = truthy_string s.
Proof.
  destruct s as [|c s]; simpl; [reflexivity|].
  destruct (rev s); reflexivity.
Qed.

(** [!value.trim()] holds exactly of the blank values. *)
Lemma trim_truthy (value : jsstring) :
  truthy_string (trim value) = negb (blank value).
Proof.
  unfold trim, trimEnd.
  rewrite truthy_rev, trimStart_nil, blank_rev, trimStart_blank.
  reflexivity.
Qed.

(** With a mounted container and a first page no call of the loop
    throws: it draws the non-blank inputs, in order. *)
Lemma drawTexts_spec (c : Container) (pd firstPage : Dim.t)
    (inputs : list TextInput.t) :
  drawTexts (Some c) pd (Some firstPage) inputs
  = Some (map (textOp c pd)
            (filter (fun input => negb (blank (TextInput.value input)))
               inputs)).
Proof.
  induction inputs as [|input rest IH]; [reflexivity|].
  cbn [drawTexts filter]. rewrite trim_truthy, negb_involutive.
  destruct (blank (TextInput.value input)); cbn [negb map].
  - exact IH.
  - rewrite IH. reflexivity.
Qed.

Lemma drawSignature_images (lib : PdfLib) (container : option Container)
    (firstPage : option Dim.t) (s : State) (ops : list DrawOp) :
  drawSignature lib container firstPage s = Some ops ->
  filter isDrawText ops = [].
Proof.
  unfold drawSignature.
  destruct (truthy_opt (signatureData s));
    [|intros H; injection H as <-; reflexivity].
  destruct (signatureData s) as [data|];
    [|intros H; injection H as <-; reflexivity].
  destruct (embedPng lib data) as [png|]; [|discriminate].
  destruct (convertToPdfCoordinates container (pageDimensions s)
              (Pos.x (signaturePosition s)) (Pos.y (signaturePosition s)))
    as [p|]; [|discriminate].
  destruct firstPage; [|discriminate].
  intros H; injection H as <-; reflexivity.
Qed.

Lemma filter_isDrawText_textOps (c : Container) (pd : Dim.t)
    (inputs : list TextInput.t) :
  filter isDrawText (map (textOp c pd) inputs) = map (textOp c pd) inputs.
Proof.
  induction inputs as [|input rest IH]; simpl; [reflexivity|].
  rewrite IH. reflexivity.
Qed.

(** C10: when the document loads with a first page, the container is
    mounted and the signature block does not throw, [handleSavePdf] hands
    to [save] a page on which the [drawText] calls are exactly those of
    the inputs whose value is not blank (empty or white space only), in
    input order, each with its own value; blank inputs get no call; and
    the state, with its [textInputs], is returned unchanged. *)
Theorem export_draws_nonblank_inputs (lib : PdfLib) (c : Container)
    (s : State) (bytes : ArrayBuffer) (firstPage : Dim.t)
    (pages : list Dim.t) (sigOps : list DrawOp) :
  pdfBytes s = Some bytes ->
  PDFDocument_load lib bytes = Some (firstPage :: pages) ->
  drawSignature lib (Some c) (Some firstPage) s = Some sigOps ->
  let drawn :=
    map (textOp c (pageDimensions s))
      (filter (fun input => negb (blank (TextInput.value input)))
         (textInputs s)) in
  handleSavePdf lib (Some c) s
  = (s, match save lib bytes (sigOps ++ drawn) with
        | Some modifiedPdfBytes => [Download modifiedPdfBytes]
        | None => saveFailed
        end)
  /\ filter isDrawText (sigOps ++ drawn) = drawn
  /\ textInputs (fst (handleSavePdf lib (Some c) s)) = textInputs s.
Proof.
  intros Hb Hl Hs drawn.
  split; [|split].
  - unfold handleSavePdf. rewrite Hb, Hl. cbn [hd_error].
    rewrite Hs, drawTexts_spec. fold drawn.
    destruct (save lib bytes (sigOps ++ drawn)); reflexivity.
  - rewrite filter_app, (drawSignature_images _ _ _ _ _ Hs).
    apply filter_isDrawText_textOps.
  - rewrite handleSavePdf_state. reflexivity.
Qed.

Lemma export_draws_nonblank_inputs_witness :
  (pdfBytes (run mixedInputs initial) = Some []
   /\ PDFDocument_load sampleLib [] = Some [Dim.mk 612 792]
   /\ drawSignature sampleLib (Some (mkContainer 800 1000))
        (Some (Dim.mk 612 792)) (run mixedInputs initial) = Some [])
  /\ (let drawn :=
        map (textOp (mkContainer 800 1000)
               (pageDimensions (run mixedInputs initial)))
          (filter (fun input => negb (blank (TextInput.value input)))
             (textInputs (run mixedInputs initial))) in
      handleSavePdf sampleLib (Some (mkContainer 800 1000))
        (run mixedInputs initial)
      = (run mixedInputs initial,
         match save sampleLib [] ([] ++ drawn) with
         | Some modifiedPdfBytes => [Download modifiedPdfBytes]
         | None => saveFailed
         end)
      /\ filter isDrawText ([] ++ drawn) = drawn
      /\ textInputs (fst (handleSavePdf sampleLib
                            (Some (mkContainer 800 1000))
                            (run mixedInputs initial)))
         = textInputs (run mixedInputs initial)).
Proof.
  assert (H1 : pdfBytes (run mixedInputs initial) = Some [])
    by (vm_compute; reflexivity).
  assert (H2 : PDFDocument_load sampleLib [] = Some [Dim.mk 612 792])
    by (vm_compute; reflexivity).
  assert (H3 : drawSignature sampleLib (Some (mkContainer 800 1000))
                 (Some (Dim.mk 612 792)) (run mixedInputs initial)
               = Some [])
    by (vm_compute; reflexivity).
  exact (conj (conj H1 (conj H2 H3))
           (export_draws_nonblank_inputs sampleLib (mkContainer 800 1000)
              (run mixedInputs initial) [] (Dim.mk 612 792) [] []
              H1 H2 H3)).
Defined.

(** On that session exactly one call is made, for the box holding
    [Hi], at the PDF point of overlay point (100, 200). *)
Example export_mixedInputs :
  drawTexts (Some (mkContainer 800 1000)) (Dim.mk 612 792)
    (Some (Dim.mk 612 792)) (textInputs (run mixedInputs initial))
  = Some [DrawText (lit "Hi") 76.5 0x1.3cccccccccccdp+9 18 (0, 0, 0)%float].
Proof. vm_compute. reflexivity. Qed.

(* ------------------------------------------------------------------ *)
(** ** The coordinate transform *)

(** C5: [convertToPdfCoordinates] computes, in double arithmetic,
    [(x / pw) * PW] and [PH - (y / ph) * PH] for a container of size
    [pw] by [ph] and a page of size [PW] by [PH]; with 800 by 1000 and
    612 by 792 it sends (0,0) to (0,792), (800,1000) to (612,0) and
    (400,500) to (306,396). *)
Theorem convertToPdfCoordinates_formula :
  (forall x y pw ph PW PH : number,
      convertToPdfCoordinates (Some (mkContainer pw ph)) (Dim.mk PW PH) x y
      = Some (coordinateTransform x y pw ph PW PH))
  /\ convertToPdfCoordinates (Some (mkContainer 800 1000)) (Dim.mk 612 792)
       0 0 = Some (Pos.mk 0 792)
  /\ convertToPdfCoordinates (Some (mkContainer 800 1000)) (Dim.mk 612 792)
       800 1000 = Some (Pos.mk 612 0)
  /\ convertToPdfCoordinates (Some (mkContainer 800 1000)) (Dim.mk 612 792)
       400 500 = Some (Pos.mk 306 396).
Proof.
  split; [intros; reflexivity|].
  split; [vm_compute; reflexivity|].
  split; vm_compute; reflexivity.
Qed.

(* ------------------------------------------------------------------ *)
(** ** Loading a file that does not parse *)

(** C9: when the selected file has the PDF MIME type, its bytes are read
    and [PDFDocument.load] rejects them, [handleFileChange] alerts
    'Failed to load PDF' but has by then emptied [history], reset
    [currentStep] to -1 and stored the new bytes and the new preview URL;
    a state that had a history is therefore not the state it leaves. *)
Theorem failed_load_is_not_atomic (lib : PdfLib) (f : File) (url : string)
    (buf : ArrayBuffer) (s : State) :
  file_type f = "application/pdf"%string ->
  arrayBuffer f = Some buf ->
  PDFDocument_load lib buf = None ->
  handleFileChange lib (Some f) url s
  = (s |> setHistory [] |> setCurrentStep (-1) |> setTempState None
       |> setPdfBytes (Some buf) |> setFileUrl (Some url),
     loadFailed)
  /\ (history s <> [] -> fst (handleFileChange lib (Some f) url s) <> s).
Proof.
  intros Hty Hbuf Hload.
  assert (E : handleFileChange lib (Some f) url s
              = (s |> setHistory [] |> setCurrentStep (-1)
                   |> setTempState None
                   |> setPdfBytes (Some buf) |> setFileUrl (Some url),
                 loadFailed)).
  { unfold handleFileChange. rewrite Hty, Hbuf, Hload. reflexivity. }
  split; [exact E|].
  intros Hh Heq. rewrite E in Heq. cbn [fst] in Heq.
  apply (f_equal history) in Heq. simpl in Heq. congruence.
Qed.

Lemma failed_load_is_not_atomic_witness :
  (file_type corruptFile = "application/pdf"%string
   /\ arrayBuffer corruptFile = Some [Byte.x25; Byte.x21]
   /\ PDFDocument_load sampleLib [Byte.x25; Byte.x21] = None)
  /\ handleFileChange sampleLib (Some corruptFile) "blob:bad"
       (run twoBoxes initial)
     = (run twoBoxes initial
          |> setHistory [] |> setCurrentStep (-1) |> setTempState None
          |> setPdfBytes (Some [Byte.x25; Byte.x21])
          |> setFileUrl (Some "blob:bad"%string),
        loadFailed)
  /\ (history (run twoBoxes initial) <> [] ->
      fst (handleFileChange sampleLib (Some corruptFile) "blob:bad"
             (run twoBoxes initial))
      <> run twoBoxes initial).
Proof.
  split.
  - repeat split; reflexivity.
  - apply (failed_load_is_not_atomic sampleLib corruptFile "blob:bad"
             [Byte.x25; Byte.x21] (run twoBoxes initial));
      reflexivity.
Defined.

(* ------------------------------------------------------------------ *)
(** ** Dragging the signature *)

(** [Math.max(10, v)] is 10, or above 10, or NaN. *)
Lemma Math_max_10 (v : number) :
  Math_max 10 v = 10%float
  \/ (10 <? Math_max 10 v)%float = true
  \/ is_nan (Math_max 10 v) = true.
Proof.
  unfold Math_max.
  replace (is_nan 10) with false by (vm_compute; reflexivity).
  replace (is_zero 10) with false by (vm_compute; reflexivity).
  cbn [orb andb].
  destruct (is_nan v).
  - right; right. vm_compute. reflexivity.
  - destruct (10 <? v)%float eqn:Hlt.
    + right; left. exact Hlt.
    + left. destruct (v <? 10)%float; reflexivity.
Qed.

(** The position a pointer-down followed by one pointer-move leaves. *)
Lemma drag_one_move (s : State) (sx sy mx my w h : number) :
  Settled s ->
  containerMounted s = true ->
  dragListeners s = [] ->
  signaturePosition (run [SigMouseDown sx sy; MouseMove mx my w h] s)
  = dragPosition (mkDrag sx sy (signaturePosition s)) mx my w h.
Proof.
  intros H Hm Hd. unfold containerMounted in Hm.
  settled_cells s H. unfold run, step, handle, mouseMove, containerMounted.
  simpl. rewrite Hm. reflexivity.
Qed.

(** C6, as the code has it: a drag that starts with the signature at
    (50,50) and moves the pointer by (1000,1000) inside an 800 by 1000
    preview leaves the signature at (640, 940), that is at
    [(800 - (signatureWidth + 10), 1000 - 60)]; and whatever the drag,
    each coordinate it sets is 10, or above 10, or NaN. *)
Theorem drag_clamps_to_buffered_bounds :
  (forall (s : State) (sx sy mx my : number),
      reachable s ->
      containerMounted s = true ->
      dragListeners s = [] ->
      signaturePosition s = Pos.mk 50 50 ->
      (mx - sx)%float = 1000%float ->
      (my - sy)%float = 1000%float ->
      signaturePosition
        (run [SigMouseDown sx sy; MouseMove mx my 800 1000] s)
      = Pos.mk (800 - (signatureWidth + 10)) (1000 - 60)
      /\ Pos.mk (800 - (signatureWidth + 10)) (1000 - 60) = Pos.mk 640 940)
  /\ (forall (d : Drag) (cx cy w h : number),
      (Pos.x (dragPosition d cx cy w h) = 10%float
       \/ (10 <? Pos.x (dragPosition d cx cy w h))%float = true
       \/ is_nan (Pos.x (dragPosition d cx cy w h)) = true)
      /\ (Pos.y (dragPosition d cx cy w h) = 10%float
          \/ (10 <? Pos.y (dragPosition d cx cy w h))%float = true
          \/ is_nan (Pos.y (dragPosition d cx cy w h)) = true)).
Proof.
  split.
  - intros s sx sy mx my Hr Hm Hd Hp Hx Hy.
    apply reachable_settled in Hr.
    rewrite (drag_one_move s sx sy mx my 800%float 1000%float Hr Hm Hd), Hp.
    unfold dragPosition. cbn [startX startY initPos Pos.x Pos.y].
    rewrite Hx, Hy. split; vm_compute; reflexivity.
  - intros d cx cy w h. unfold dragPosition. cbn [Pos.x Pos.y].
    split; apply Math_max_10.
Qed.

Lemma drag_clamps_to_buffered_bounds_witness :
  (reachable (run signed initial)
   /\ containerMounted (run signed initial) = true
   /\ dragListeners (run signed initial) = []
   /\ signaturePosition (run signed initial) = Pos.mk 50 50
   /\ (1060 - 60)%float = 1000%float
   /\ (1075 - 75)%float = 1000%float)
  /\ signaturePosition
       (run [SigMouseDown 60 75; MouseMove 1060 1075 800 1000]
          (run signed initial))
     = Pos.mk (800 - (signatureWidth + 10)) (1000 - 60)
  /\ Pos.mk (800 - (signatureWidth + 10)) (1000 - 60) = Pos.mk 640 940.
Proof.
  assert (H1 : reachable (run signed initial))
    by (exists signed; reflexivity).
  assert (H2 : containerMounted (run signed initial) = true)
    by (vm_compute; reflexivity).
  assert (H3 : dragListeners (run signed initial) = [])
    by (vm_compute; reflexivity).
  assert (H4 : signaturePosition (run signed initial) = Pos.mk 50 50)
    by (vm_compute; reflexivity).
  assert (H5 : (1060 - 60)%float = 1000%float) by (vm_compute; reflexivity).
  assert (H6 : (1075 - 75)%float = 1000%float) by (vm_compute; reflexivity).
  exact (conj (conj H1 (conj H2 (conj H3 (conj H4 (conj H5 H6)))))
           (proj1 drag_clamps_to_buffered_bounds (run signed initial)
              60 75 1060 1075 H1 H2 H3 H4 H5 H6)%float).
Defined.

(** The same drag evaluated: the signature stops at x = 640, which is not
    [800 - signatureWidth] = 650. *)
Lemma drag_does_not_reach_signatureWidth_bound :
  signaturePosition
    (run [SigMouseDown 60 75; MouseMove 1060 1075 800 1000]
       (run signed initial))
  = Pos.mk 640 940
  /\ Pos.x (signaturePosition
             (run [SigMouseDown 60 75; MouseMove 1060 1075 800 1000]
                (run signed initial)))
     <> (800 - signatureWidth)%float.
Proof.
  split; [vm_compute; reflexivity|].
  intros H.
  apply (f_equal (fun v => (v =? 650)%float)) in H.
  vm_compute in H. discriminate H.
Qed.

(* ------------------------------------------------------------------ *)
(** ** Export and the size of the container *)








(** On that session the transform is run for the signature and for the
    one box that holds text. *)
Example export_annotate :
  signatureOps sampleLib (mkContainer 800 1000) (run annotate initial)
  ++ map (textOp (mkContainer 800 1000)
            (pageDimensions (run annotate initial)))
       (filter (fun input => negb (blank (TextInput.value input)))
          (textInputs (run annotate initial)))
  = [DrawImage (mkPng 500 200) 38.25 0x1.5a33333333333p+9 150 60;
     DrawText (lit "Hi") 76.5 0x1.3cccccccccccdp+9 18 (0, 0, 0)%float].
Proof. vm_compute. reflexivity. Qed.


(* ------------------------------------------------------------------ *)
(** ** How each event moves the history cells *)

Lemma step_records (e : Event) (s : State) :
  Settled s ->
  records e s = true ->
  exists t, recorded t s (step e s).
Proof.
  intros H He. destruct e; try discriminate He.
  - exists (live s). apply (step_PreviewClick _ _ _ _ s H He).
  - simpl in He. destruct (timeoutRef s) as [tm|] eqn:Htm; [|discriminate].
    exists (tm_render tm). apply (step_DebounceFire tm s H Htm).
  - exists (live s). apply (step_Delete id s H).
  - exists (live s). apply (step_ClearAll s H).
Qed.

Lemma step_FileChange_pdf (lib : PdfLib) (f : File) (url : string)
    (s : State) :
  Settled s ->
  file_type f = "application/pdf"%string ->
  let s' := step (FileChange lib (Some f) url) s in
  history s' = [] /\ currentStep s' = -1
  /\ tempState s' = None /\ pendingChanges s' = false
  /\ live s' = live s /\ timeoutRef s' = timeoutRef s
  /\ dragListeners s' = dragListeners s.
Proof.
  intros H Hty. unfold step, handle, handleFileChange. rewrite Hty.
  cbn [String.eqb negb].
  change (negb ("application/pdf" =? "application/pdf")%string) with false.
  cbv iota.
  destruct (arrayBuffer f) as [buf|];
    [destruct (PDFDocument_load lib buf) as [[|p ps]|]|];
    cbn [fst]; rewrite runEffects_idle by reflexivity;
    destruct H as [_ Hp _ _]; simpl; repeat split; exact Hp.
Qed.

Lemma step_FileChange_invalid (lib : PdfLib) (file : option File)
    (url : string) (s : State) :
  match file with
  | None => True
  | Some f => file_type f <> "application/pdf"%string
  end ->
  handleFileChange lib file url s
  = (s, [Alert "Please select a valid PDF file."]).
Proof.
  unfold handleFileChange. destruct file as [f|]; [|reflexivity].
  intros Hty. destruct (String.eqb_spec (file_type f) "application/pdf");
    [contradiction|reflexivity].
Qed.

(** The five ways an event can move [history] and [currentStep]. *)
Lemma step_history_cases (e : Event) (s : State) :
  Settled s ->
  (history (step e s) = history s /\ currentStep (step e s) = currentStep s)
  \/ (history (step e s) = [] /\ currentStep (step e s) = -1)
  \/ (exists t, recorded t s (step e s))
  \/ (0 < currentStep s
      /\ history (step e s) = history s
      /\ currentStep (step e s) = currentStep s - 1)
  \/ (currentStep s < Z.of_nat (List.length (history s)) - 1
      /\ history (step e s) = history s
      /\ currentStep (step e s) = currentStep s + 1).
Proof.
  intros H.
  destruct (records e s) eqn:Hrec.
  { right; right; left. apply step_records; assumption. }
  destruct (leavesHistoryAlone e) eqn:Hal.
  { left. apply step_leavesHistoryAlone; assumption. }
  pose proof (settled_temp s H) as Ht.
  destruct e; try discriminate Hal; try discriminate Hrec.
  - (* FileChange *)
    destruct file as [f|].
    + destruct (String.eqb_spec (file_type f) "application/pdf") as [E|E].
      * right; left.
        destruct (step_FileChange_pdf lib f url s H E) as (H1 & H2 & _).
        auto.
      * left. unfold step, handle.
        rewrite (step_FileChange_invalid lib (Some f) url s E).
        cbn [fst]. rewrite runEffects_idle by exact Ht. auto.
    + left. unfold step, handle.
      rewrite (step_FileChange_invalid lib None url s I).
      cbn [fst]. rewrite runEffects_idle by exact Ht. auto.
  - (* PreviewClick on an unmounted preview *)
    left. simpl in Hrec. unfold step, handle, handlePreviewClick.
    rewrite Hrec. cbn [negb fst].
    rewrite runEffects_idle by exact Ht. auto.
  - (* DebounceFire with no timer *)
    left. simpl in Hrec. unfold step, handle, debounceFire.
    destruct (timeoutRef s); [discriminate|].
    cbn [fst]. rewrite runEffects_idle by exact Ht. auto.
  - (* Undo *)
    unfold step, handle, handleUndo.
    destruct (0 <? currentStep s) eqn:E.
    + apply Z.ltb_lt in E. right; right; right; left.
      destruct (index (history s) (currentStep s - 1)); cbn [fst];
        rewrite runEffects_idle by exact Ht; simpl; auto.
    + left. cbn [fst]. rewrite runEffects_idle by exact Ht. auto.
  - (* Redo *)
    unfold step, handle, handleRedo.
    destruct (currentStep s <? Z.of_nat (List.length (history s)) - 1) eqn:E.
    + apply Z.ltb_lt in E. right; right; right; right.
      destruct (index (history s) (currentStep s + 1)); cbn [fst];
        rewrite runEffects_idle by exact Ht; simpl; auto.
    + left. cbn [fst]. rewrite runEffects_idle by exact Ht. auto.
Qed.

Lemma index_in_range {A : Type} (l : list A) (i : Z) :
  0 <= i < Z.of_nat (List.length l) -> exists x, index l i = Some x.
Proof.
  intros Hi. unfold index.
  destruct (i <? 0) eqn:E; [apply Z.ltb_lt in E; lia|].
  destruct (nth_error l (Z.to_nat i)) as [x|] eqn:En; [exists x; reflexivity|].
  apply nth_error_None in En. lia.
Qed.

(** Outside the guards the two handlers change nothing. *)
Lemma step_Undo_idle (s : State) :
  Settled s -> currentStep s <= 0 -> step Undo s = s.
Proof.
  intros H Hc. unfold step, handle, handleUndo.
  assert (E : (0 <? currentStep s) = false) by (apply Z.ltb_ge; lia).
  rewrite E. cbn [fst]. apply runEffects_idle, H.
Qed.

Lemma step_Redo_idle (s : State) :
  Settled s ->
  Z.of_nat (List.length (history s)) - 1 <= currentStep s ->
  step Redo s = s.
Proof.
  intros H Hc. unfold step, handle, handleRedo.
  assert (E : (currentStep s <? Z.of_nat (List.length (history s)) - 1)
              = false) by (apply Z.ltb_ge; lia).
  rewrite E. cbn [fst]. apply runEffects_idle, H.
Qed.

(** Inside the guards they move the cursor by one and show the snapshot
    it then points at. *)
Lemma step_Undo_moves (s : State) :
  Settled s ->
  0 < currentStep s ->
  snd (handle Undo s) = []
  /\ currentStep (step Undo s) = currentStep s - 1
  /\ history (step Undo s) = history s
  /\ index (history s) (currentStep s - 1) = Some (live (step Undo s)).
Proof.
  intros H Hc. pose proof (settled_upper s H) as Hu.
  destruct (index_in_range (history s) (currentStep s - 1)) as [t Ht];
    [lia|].
  unfold step, handle, handleUndo.
  assert (E : (0 <? currentStep s) = true) by (apply Z.ltb_lt; lia).
  rewrite E, Ht. cbn [fst snd].
  rewrite runEffects_idle by apply H.
  split; [reflexivity|]. split; [reflexivity|]. split; [reflexivity|].
  rewrite live_applyState. reflexivity.
Qed.

Lemma step_Redo_moves (s : State) :
  Settled s ->
  currentStep s < Z.of_nat (List.length (history s)) - 1 ->
  snd (handle Redo s) = []
  /\ currentStep (step Redo s) = currentStep s + 1
  /\ history (step Redo s) = history s
  /\ index (history s) (currentStep s + 1) = Some (live (step Redo s)).
Proof.
  intros H Hc. pose proof (settled_lower s H) as Hl.
  destruct (index_in_range (history s) (currentStep s + 1)) as [t Ht];
    [lia|].
  unfold step, handle, handleRedo.
  assert (E : (currentStep s <? Z.of_nat (List.length (history s)) - 1)
              = true) by (apply Z.ltb_lt; lia).
  rewrite E, Ht. cbn [fst snd].
  rewrite runEffects_idle by apply H.
  split; [reflexivity|]. split; [reflexivity|]. split; [reflexivity|].
  rewrite live_applyState. reflexivity.
Qed.

(* ------------------------------------------------------------------ *)
(** ** Further properties of the history *)

(** X1: between events, in every reachable state, no mutation is pending
    ([tempState] is null and [pendingChanges.current] is false),
    [currentStep] lies between -1 and [history.length] inclusive, and
    [history] is empty exactly when [currentStep] is -1. *)
Theorem history_cells_invariant (s : State) :
  reachable s ->
  tempState s = None
  /\ pendingChanges s = false
  /\ -1 <= currentStep s <= Z.of_nat (List.length (history s))
  /\ (history s = [] <-> currentStep s = -1).
Proof.
  intros Hr.
  pose proof (reachable_settled s Hr) as Hs.
  split; [apply Hs|]. split; [apply Hs|].
  split; [split; apply Hs|].
  destruct Hr as [events <-]. clear Hs.
  assert (G : forall evs s0,
             Settled s0 ->
             (history s0 = [] <-> currentStep s0 = -1) ->
             (history (run evs s0) = [] <-> currentStep (run evs s0) = -1)).
  { induction evs as [|e evs IH]; intros s0 Hs0 Hiff; [exact Hiff|].
    simpl. apply IH; [apply step_settled; exact Hs0|].
    pose proof (settled_lower s0 Hs0) as Hl.
    pose proof (settled_upper s0 Hs0) as Hu.
    assert (Hne : forall l : list Snapshot.t,
               0 < Z.of_nat (List.length l) -> l <> []).
    { intros l Hlen E. rewrite E in Hlen. simpl in Hlen. lia. }
    destruct (step_history_cases e s0 Hs0)
      as [[Hh Hc]|[[Hh Hc]|[[t Hrec]|[(Hg & Hh & Hc)|(Hg & Hh & Hc)]]]].
    - rewrite Hh, Hc. exact Hiff.
    - rewrite Hh, Hc. split; reflexivity.
    - destruct Hrec as (Hh & Hc & _).
      split; intros E.
      + exfalso. revert E. apply Hne.
        rewrite Hh, pushSnapshot_twice_length by lia. lia.
      + lia.
    - rewrite Hh, Hc. split; intros E; [|lia].
      exfalso. revert E. apply Hne. lia.
    - rewrite Hh, Hc. split; intros E; [|lia].
      exfalso. revert E. apply Hne. lia. }
  apply G; [apply initial_settled|].
  split; reflexivity.
Qed.

Lemma history_cells_invariant_witness :
  reachable (run twoBoxes initial)
  /\ tempState (run twoBoxes initial) = None
  /\ pendingChanges (run twoBoxes initial) = false
  /\ -1 <= currentStep (run twoBoxes initial)
        <= Z.of_nat (List.length (history (run twoBoxes initial)))
  /\ (history (run twoBoxes initial) = []
      <-> currentStep (run twoBoxes initial) = -1).
Proof.
  assert (Hr : reachable (run twoBoxes initial))
    by (exists twoBoxes; reflexivity).
  exact (conj Hr (history_cells_invariant (run twoBoxes initial) Hr)).
Defined.

(** X2: in every reachable state [handleUndo] and [handleRedo] run
    without an exception: whenever their guard lets them read
    [history[currentStep - 1]] or [history[currentStep + 1]], that slot
    holds a snapshot. *)
Theorem undo_redo_never_throw (s : State) :
  reachable s ->
  snd (handle Undo s) = [] /\ snd (handle Redo s) = [].
Proof.
  intros Hr. apply reachable_settled in Hr. split.
  - destruct (Z_lt_le_dec 0 (currentStep s)) as [Hc|Hc].
    + apply (step_Undo_moves s Hr Hc).
    + unfold handle, handleUndo.
      assert (E : (0 <? currentStep s) = false) by (apply Z.ltb_ge; lia).
      rewrite E. reflexivity.
  - destruct (Z_lt_le_dec (currentStep s)
                (Z.of_nat (List.length (history s)) - 1)) as [Hc|Hc].
    + apply (step_Redo_moves s Hr Hc).
    + unfold handle, handleRedo.
      assert (E : (currentStep s <? Z.of_nat (List.length (history s)) - 1)
                  = false) by (apply Z.ltb_ge; lia).
      rewrite E. reflexivity.
Qed.

Lemma undo_redo_never_throw_witness :
  reachable (run twoBoxes initial)
  /\ snd (handle Undo (run twoBoxes initial)) = []
  /\ snd (handle Redo (run twoBoxes initial)) = [].
Proof.
  assert (Hr : reachable (run twoBoxes initial))
    by (exists twoBoxes; reflexivity).
  exact (conj Hr (undo_redo_never_throw (run twoBoxes initial) Hr)).
Defined.

(** X3: in a reachable state, an undo with [currentStep > 0] lowers the
    cursor by one, keeps [history] and makes the live cells equal to the
    snapshot the cursor now points at; a redo with
    [currentStep < history.length - 1] does the same one step up; outside
    these guards either handler leaves the whole state as it is. *)
Theorem undo_redo_show_cursor_snapshot (s : State) :
  reachable s ->
  (0 < currentStep s ->
   currentStep (step Undo s) = currentStep s - 1
   /\ history (step Undo s) = history s
   /\ index (history (step Undo s)) (currentStep (step Undo s))
      = Some (live (step Undo s)))
  /\ (currentStep s < Z.of_nat (List.length (history s)) - 1 ->
      currentStep (step Redo s) = currentStep s + 1
      /\ history (step Redo s) = history s
      /\ index (history (step Redo s)) (currentStep (step Redo s))
         = Some (live (step Redo s)))
  /\ (currentStep s <= 0 -> step Undo s = s)
  /\ (Z.of_nat (List.length (history s)) - 1 <= currentStep s ->
      step Redo s = s).
Proof.
  intros Hr. apply reachable_settled in Hr.
  split; [|split; [|split]].
  - intros Hc. destruct (step_Undo_moves s Hr Hc) as (_ & H1 & H2 & H3).
    rewrite H1, H2. auto.
  - intros Hc. destruct (step_Redo_moves s Hr Hc) as (_ & H1 & H2 & H3).
    rewrite H1, H2. auto.
  - apply step_Undo_idle, Hr.
  - apply step_Redo_idle, Hr.
Qed.

Lemma undo_redo_show_cursor_snapshot_witness :
  (reachable (run (twoBoxes ++ [Undo; Undo]) initial)
   /\ 0 < currentStep (run (twoBoxes ++ [Undo; Undo]) initial)
   /\ currentStep (run (twoBoxes ++ [Undo; Undo]) initial)
      < Z.of_nat
          (List.length (history (run (twoBoxes ++ [Undo; Undo]) initial)))
        - 1)
  /\ (currentStep (step Undo (run (twoBoxes ++ [Undo; Undo]) initial))
      = currentStep (run (twoBoxes ++ [Undo; Undo]) initial) - 1
      /\ history (step Undo (run (twoBoxes ++ [Undo; Undo]) initial))
         = history (run (twoBoxes ++ [Undo; Undo]) initial)
      /\ index
           (history (step Undo (run (twoBoxes ++ [Undo; Undo]) initial)))
           (currentStep
              (step Undo (run (twoBoxes ++ [Undo; Undo]) initial)))
         = Some (live (step Undo (run (twoBoxes ++ [Undo; Undo]) initial))))
  /\ (currentStep (step Redo (run (twoBoxes ++ [Undo; Undo]) initial))
      = currentStep (run (twoBoxes ++ [Undo; Undo]) initial) + 1
      /\ history (step Redo (run (twoBoxes ++ [Undo; Undo]) initial))
         = history (run (twoBoxes ++ [Undo; Undo]) initial)
      /\ index
           (history (step Redo (run (twoBoxes ++ [Undo; Undo]) initial)))
           (currentStep
              (step Redo (run (twoBoxes ++ [Undo; Undo]) initial)))
         = Some (live (step Redo (run (twoBoxes ++ [Undo; Undo]) initial)))).
Proof.
  assert (Hr : reachable (run (twoBoxes ++ [Undo; Undo]) initial))
    by (exists (twoBoxes ++ [Undo; Undo]); reflexivity).
  assert (H1 : 0 < currentStep (run (twoBoxes ++ [Undo; Undo]) initial))
    by (vm_compute; reflexivity).
  assert (H2 : currentStep (run (twoBoxes ++ [Undo; Undo]) initial)
               < Z.of_nat
                   (List.length
                      (history (run (twoBoxes ++ [Undo; Undo]) initial)))
                 - 1)
    by (vm_compute; reflexivity).
  pose proof (undo_redo_show_cursor_snapshot
                (run (twoBoxes ++ [Undo; Undo]) initial) Hr) as T.
  exact (conj (conj Hr (conj H1 H2))
           (conj (proj1 T H1) (proj1 (proj2 T) H2))).
Defined.

Lemma recorded_redo_idle (t : Snapshot.t) (s s' : State) :
  Settled s -> recorded t s s' -> step Redo s' = s'.
Proof.
  intros Hs Hrec.
  assert (Hs' : Settled s').
  { destruct Hs as [_ _ Hl Hu]. destruct Hrec as (Hh & Hc & Ht & Hp).
    constructor; try assumption; [lia|].
    rewrite Hh, pushSnapshot_twice_length by lia. lia. }
  apply (step_Redo_idle s' Hs').
  rewrite (recorded_cursor_past_end t s s' Hs Hrec). lia.
Qed.

(** The slots below the old cursor survive the two pushes. *)
Lemma recorded_keeps_prefix (t : Snapshot.t) (s s' : State) (i : Z) :
  Settled s ->
  recorded t s s' ->
  0 <= i <= currentStep s ->
  i < Z.of_nat (List.length (history s)) ->
  index (history s') i = index (history s) i.
Proof.
  intros [_ _ Hl Hu] (Hh & _) Hi Hlen.
  rewrite Hh, pushSnapshot_twice by lia.
  unfold index. destruct (i <? 0) eqn:E; [apply Z.ltb_lt in E; lia|].
  rewrite nth_error_app1
    by (rewrite length_firstn, length_app; simpl; lia).
  rewrite nth_error_firstn.
  assert (E2 : (Z.to_nat i <? Z.to_nat (currentStep s + 1))%nat = true)
    by (apply Nat.ltb_lt; lia).
  rewrite E2. apply nth_error_app1. lia.
Qed.

(** X4: in a reachable state, after any action that goes through
    [updateState] (deleting a box, clearing, clicking a mounted preview,
    the debounce timer firing) a redo does nothing, whatever could be
    redone before; the snapshots at indices up to the old cursor are the
    ones that were there. *)
Theorem recorded_action_kills_redo (e : Event) (s : State) :
  reachable s ->
  records e s = true ->
  step Redo (step e s) = step e s
  /\ (forall i, 0 <= i <= currentStep s ->
                i < Z.of_nat (List.length (history s)) ->
                index (history (step e s)) i = index (history s) i).
Proof.
  intros Hr He. apply reachable_settled in Hr.
  destruct (step_records e s Hr He) as [t Hrec].
  split.
  - apply (recorded_redo_idle t s _ Hr Hrec).
  - intros i Hi Hlen. apply (recorded_keeps_prefix t s _ i Hr Hrec Hi Hlen).
Qed.

Lemma recorded_action_kills_redo_witness :
  (reachable (run (twoBoxes ++ [Undo; Undo]) initial)
   /\ records (Delete 1700000000001)
        (run (twoBoxes ++ [Undo; Undo]) initial) = true)
  /\ step Redo (step (Delete 1700000000001)
                  (run (twoBoxes ++ [Undo; Undo]) initial))
     = step (Delete 1700000000001) (run (twoBoxes ++ [Undo; Undo]) initial)
  /\ (forall i,
      0 <= i <= currentStep (run (twoBoxes ++ [Undo; Undo]) initial) ->
      i < Z.of_nat
            (List.length (history (run (twoBoxes ++ [Undo; Undo]) initial)))
      ->
      index (history (step (Delete 1700000000001)
                        (run (twoBoxes ++ [Undo; Undo]) initial))) i
      = index (history (run (twoBoxes ++ [Undo; Undo]) initial)) i).
Proof.
  assert (Hr : reachable (run (twoBoxes ++ [Undo; Undo]) initial))
    by (exists (twoBoxes ++ [Undo; Undo]); reflexivity).
  assert (He : records (Delete 1700000000001)
                 (run (twoBoxes ++ [Undo; Undo]) initial) = true)
    by reflexivity.
  exact (conj (conj Hr He)
           (recorded_action_kills_redo (Delete 1700000000001)
              (run (twoBoxes ++ [Undo; Undo]) initial) Hr He)).
Defined.

Lemma run_undos (n : nat) (s : State) :
  Settled s ->
  Z.of_nat n <= currentStep s ->
  currentStep (run (repeat Undo n) s) = currentStep s - Z.of_nat n
  /\ history (run (repeat Undo n) s) = history s
  /\ (0 < n ->
      index (history s) (currentStep s - Z.of_nat n)
      = Some (live (run (repeat Undo n) s)))%nat.
Proof.
  revert s. induction n as [|n IH]; intros s Hs Hn.
  - simpl. split; [lia|]. split; [reflexivity|]. intros H; inversion H.
  - cbn [repeat run fold_left].
    change (fold_left (fun acc e => step e acc) (repeat Undo n) (step Undo s))
      with (run (repeat Undo n) (step Undo s)).
    destruct (step_Undo_moves s Hs) as (_ & Hc & Hh & Hl); [lia|].
    destruct (IH (step Undo s) (step_settled Undo s Hs)) as (Hc' & Hh' & Hl');
      [lia|].
    split; [lia|]. split; [congruence|]. intros _.
    destruct n as [|n].
    + simpl. exact Hl.
    + rewrite <- Hl' by lia. rewrite Hh, Hc. f_equal. lia.
Qed.

(** X5: in a reachable state with [currentStep > 0], pressing undo
    [currentStep] times brings the cursor to 0 and shows the oldest
    snapshot [history[0]]; one more undo changes nothing. *)
Theorem undo_reaches_oldest (s : State) :
  reachable s ->
  0 < currentStep s ->
  currentStep (run (repeat Undo (Z.to_nat (currentStep s))) s) = 0
  /\ index (history s) 0
     = Some (live (run (repeat Undo (Z.to_nat (currentStep s))) s))
  /\ step Undo (run (repeat Undo (Z.to_nat (currentStep s))) s)
     = run (repeat Undo (Z.to_nat (currentStep s))) s.
Proof.
  intros Hr Hc. apply reachable_settled in Hr.
  destruct (run_undos (Z.to_nat (currentStep s)) s Hr) as (H1 & H2 & H3);
    [lia|].
  split; [lia|]. split.
  - rewrite <- H3 by lia. f_equal. lia.
  - apply step_Undo_idle; [apply run_settled; exact Hr|lia].
Qed.

Lemma undo_reaches_oldest_witness :
  (reachable (run twoBoxes initial)
   /\ 0 < currentStep (run twoBoxes initial))
  /\ currentStep
       (run (repeat Undo (Z.to_nat (currentStep (run twoBoxes initial))))
          (run twoBoxes initial)) = 0
  /\ index (history (run twoBoxes initial)) 0
     = Some
         (live
            (run (repeat Undo
                    (Z.to_nat (currentStep (run twoBoxes initial))))
               (run twoBoxes initial)))
  /\ step Undo
       (run (repeat Undo (Z.to_nat (currentStep (run twoBoxes initial))))
          (run twoBoxes initial))
     = run (repeat Undo (Z.to_nat (currentStep (run twoBoxes initial))))
         (run twoBoxes initial).
Proof.
  assert (Hr : reachable (run twoBoxes initial))
    by (exists twoBoxes; reflexivity).
  assert (Hc : 0 < currentStep (run twoBoxes initial))
    by (vm_compute; reflexivity).
  exact (conj (conj Hr Hc)
           (undo_reaches_oldest (run twoBoxes initial) Hr Hc)).
Defined.

(* ------------------------------------------------------------------ *)
(** ** Further properties of file selection *)

(** X6: when no file is selected or the selected file's type is not
    [application/pdf], [handleFileChange] alerts 'Please select a valid
    PDF file.' and calls no setter: the state, history included, is the
    one before, and nothing is asked of the PDF library. *)
Theorem invalid_file_is_rejected (lib : PdfLib) (file : option File)
    (url : string) (s : State) :
  match file with
  | None => True
  | Some f => file_type f <> "application/pdf"%string
  end ->
  handleFileChange lib file url s
  = (s, [Alert "Please select a valid PDF file."])
  /\ (tempState s = None -> step (FileChange lib file url) s = s).
Proof.
  intros H. pose proof (step_FileChange_invalid lib file url s H) as E.
  split; [exact E|].
  intros Ht. unfold step, handle. rewrite E. cbn [fst].
  apply runEffects_idle, Ht.
Qed.

Lemma invalid_file_is_rejected_witness :
  (file_type (mkFile "image/png" (Some [])) <> "application/pdf"%string)
  /\ handleFileChange sampleLib (Some (mkFile "image/png" (Some [])))
       "blob:img" (run twoBoxes initial)
     = (run twoBoxes initial, [Alert "Please select a valid PDF file."])
  /\ (tempState (run twoBoxes initial) = None ->
      step (FileChange sampleLib (Some (mkFile "image/png" (Some [])))
              "blob:img") (run twoBoxes initial)
      = run twoBoxes initial).
Proof.
  assert (H : file_type (mkFile "image/png" (Some []))
              <> "application/pdf"%string) by discriminate.
  exact (conj H
           (invalid_file_is_rejected sampleLib
              (Some (mkFile "image/png" (Some []))) "blob:img"
              (run twoBoxes initial) H)).
Defined.

(** X7: in a reachable state, selecting a file of type
    [application/pdf] empties the history whether or not the file can be
    read and parsed: afterwards [history] is empty, [currentStep] is -1
    and both undo and redo do nothing.  The text boxes, the signature
    and its position of the previous document stay as they were, and so
    does an armed debounce timer. *)
Theorem file_selection_resets_history (lib : PdfLib) (f : File)
    (url : string) (s : State) :
  reachable s ->
  file_type f = "application/pdf"%string ->
  history (step (FileChange lib (Some f) url) s) = []
  /\ currentStep (step (FileChange lib (Some f) url) s) = -1
  /\ step Undo (step (FileChange lib (Some f) url) s)
     = step (FileChange lib (Some f) url) s
  /\ step Redo (step (FileChange lib (Some f) url) s)
     = step (FileChange lib (Some f) url) s
  /\ live (step (FileChange lib (Some f) url) s) = live s
  /\ timeoutRef (step (FileChange lib (Some f) url) s) = timeoutRef s.
Proof.
  intros Hr Hty. apply reachable_settled in Hr.
  pose proof (step_settled (FileChange lib (Some f) url) s Hr) as Hs'.
  destruct (step_FileChange_pdf lib f url s Hr Hty)
    as (Hh & Hc & _ & _ & Hl & Htm & _).
  split; [exact Hh|]. split; [exact Hc|].
  split; [apply (step_Undo_idle _ Hs'); rewrite Hc; lia|].
  split; [apply (step_Redo_idle _ Hs'); rewrite Hc, Hh; simpl; lia|].
  split; assumption.
Qed.

Lemma file_selection_resets_history_witness :
  (reachable (run annotate initial)
   /\ file_type corruptFile = "application/pdf"%string)
  /\ history (step (FileChange sampleLib (Some corruptFile) "blob:bad")
                (run annotate initial)) = []
  /\ currentStep (step (FileChange sampleLib (Some corruptFile) "blob:bad")
                    (run annotate initial)) = -1
  /\ step Undo (step (FileChange sampleLib (Some corruptFile) "blob:bad")
                  (run annotate initial))
     = step (FileChange sampleLib (Some corruptFile) "blob:bad")
         (run annotate initial)
  /\ step Redo (step (FileChange sampleLib (Some corruptFile) "blob:bad")
                  (run annotate initial))
     = step (FileChange sampleLib (Some corruptFile) "blob:bad")
         (run annotate initial)
  /\ live (step (FileChange sampleLib (Some corruptFile) "blob:bad")
             (run annotate initial))
     = live (run annotate initial)
  /\ timeoutRef (step (FileChange sampleLib (Some corruptFile) "blob:bad")
                   (run annotate initial))
     = timeoutRef (run annotate initial).
Proof.
  assert (Hr : reachable (run annotate initial))
    by (exists annotate; reflexivity).
  assert (Hty : file_type corruptFile = "application/pdf"%string)
    by reflexivity.
  exact (conj (conj Hr Hty)
           (file_selection_resets_history sampleLib corruptFile "blob:bad"
              (run annotate initial) Hr Hty)).
Defined.

(* ------------------------------------------------------------------ *)
(** ** Further properties of text boxes *)

(** X8: in a reachable state, deleting by identifier keeps exactly the
    entries whose [id] differs, so every entry carrying that [id] goes;
    when one entry carries it, the entries before and after it are left
    as they were and in the same order; the signature and its position
    are not touched. *)
Theorem delete_removes_entries_with_id (id : Z) (s : State) :
  reachable s ->
  (forall t, In t (textInputs (step (Delete id) s))
             <-> In t (textInputs s) /\ TextInput.id t <> id)
  /\ (forall before t after,
      textInputs s = before ++ t :: after ->
      TextInput.id t = id ->
      (forall u, In u (before ++ after) -> TextInput.id u <> id) ->
      textInputs (step (Delete id) s) = before ++ after)
  /\ signatureData (step (Delete id) s) = signatureData s
  /\ signaturePosition (step (Delete id) s) = signaturePosition s.
Proof.
  intros Hr. apply reachable_settled in Hr.
  destruct (step_Delete id s Hr) as (_ & Ht & Hd & Hp).
  split; [|split; [|split; assumption]].
  - intros t. rewrite Ht, filter_In, negb_true_iff, Z.eqb_neq. reflexivity.
  - intros before t after E Hid Hothers. rewrite Ht, E.
    assert (Hkeep : forall l,
               (forall u, In u l -> TextInput.id u <> id) ->
               filter (fun input => negb (TextInput.id input =? id)) l = l).
    { induction l as [|u l IH]; intros Hl; [reflexivity|].
      cbn [filter].
      assert (Eu : (TextInput.id u =? id) = false)
        by (apply Z.eqb_neq, Hl; left; reflexivity).
      rewrite Eu. cbn [negb]. f_equal. apply IH.
      intros v Hv. apply Hl. right. exact Hv. }
    rewrite filter_app. cbn [filter].
    assert (Et : (TextInput.id t =? id) = true) by (apply Z.eqb_eq, Hid).
    rewrite Et. cbn [negb].
    rewrite !Hkeep; [reflexivity| |];
      intros u Hu; apply Hothers, in_or_app; [right|left]; exact Hu.
Qed.

Lemma delete_removes_entries_with_id_witness :
  reachable (run twoBoxes initial)
  /\ (forall t,
      In t (textInputs (step (Delete 1700000000001) (run twoBoxes initial)))
      <-> In t (textInputs (run twoBoxes initial))
          /\ TextInput.id t <> 1700000000001)
  /\ (forall before t after,
      textInputs (run twoBoxes initial) = before ++ t :: after ->
      TextInput.id t = 1700000000001 ->
      (forall u, In u (before ++ after) ->
                 TextInput.id u <> 1700000000001) ->
      textInputs (step (Delete 1700000000001) (run twoBoxes initial))
      = before ++ after)
  /\ signatureData (step (Delete 1700000000001) (run twoBoxes initial))
     = signatureData (run twoBoxes initial)
  /\ signaturePosition (step (Delete 1700000000001) (run twoBoxes initial))
     = signaturePosition (run twoBoxes initial).
Proof.
  assert (Hr : reachable (run twoBoxes initial))
    by (exists twoBoxes; reflexivity).
  exact (conj Hr
           (delete_removes_entries_with_id 1700000000001
              (run twoBoxes initial) Hr)).
Defined.

Lemma step_Change (id : Z) (v : jsstring) (s : State) :
  Settled s ->
  step (Change id v) s
  = (s |> setTextInputs (map (setValue id v) (textInputs s))
       |> setTimeoutRef (Some (mkTimer (live s) id v))).
Proof.
  intros H. unfold step, handle, onChange. cbn [fst].
  apply runEffects_idle. simpl. apply H.
Qed.

Lemma setValue_fields (id : Z) (v : jsstring) (t : TextInput.t) :
  TextInput.id (setValue id v t) = TextInput.id t
  /\ TextInput.x (setValue id v t) = TextInput.x t
  /\ TextInput.y (setValue id v t) = TextInput.y t
  /\ TextInput.value (setValue id v t)
     = (if TextInput.id t =? id then v else TextInput.value t).
Proof.
  unfold setValue. destruct (TextInput.id t =? id); simpl; auto.
Qed.

(** X9: in a reachable state, a keystroke in the box called [id] keeps
    the number, the order, the identifiers and the positions of all
    boxes, gives every box called [id] the new value and leaves the value
    of every other box alone; it changes neither [history] nor
    [currentStep]. *)
Theorem keystroke_touches_only_values (id : Z) (v : jsstring) (s : State) :
  reachable s ->
  map TextInput.id (textInputs (step (Change id v) s))
  = map TextInput.id (textInputs s)
  /\ map TextInput.x (textInputs (step (Change id v) s))
     = map TextInput.x (textInputs s)
  /\ map TextInput.y (textInputs (step (Change id v) s))
     = map TextInput.y (textInputs s)
  /\ map TextInput.value (textInputs (step (Change id v) s))
     = map (fun t => if TextInput.id t =? id then v else TextInput.value t)
         (textInputs s)
  /\ history (step (Change id v) s) = history s
  /\ currentStep (step (Change id v) s) = currentStep s.
Proof.
  intros Hr. apply reachable_settled in Hr.
  rewrite (step_Change id v s Hr). simpl.
  rewrite !map_map.
  repeat split; try reflexivity;
    apply map_ext; intros t; apply (setValue_fields id v t).
Qed.

Lemma keystroke_touches_only_values_witness :
  reachable (run twoBoxes initial)
  /\ map TextInput.id
       (textInputs (step (Change 1700000000002 (lit "ok"))
                      (run twoBoxes initial)))
     = map TextInput.id (textInputs (run twoBoxes initial))
  /\ map TextInput.x
       (textInputs (step (Change 1700000000002 (lit "ok"))
                      (run twoBoxes initial)))
     = map TextInput.x (textInputs (run twoBoxes initial))
  /\ map TextInput.y
       (textInputs (step (Change 1700000000002 (lit "ok"))
                      (run twoBoxes initial)))
     = map TextInput.y (textInputs (run twoBoxes initial))
  /\ map TextInput.value
       (textInputs (step (Change 1700000000002 (lit "ok"))
                      (run twoBoxes initial)))
     = map (fun t => if TextInput.id t =? 1700000000002
                     then lit "ok" else TextInput.value t)
         (textInputs (run twoBoxes initial))
  /\ history (step (Change 1700000000002 (lit "ok"))
                (run twoBoxes initial))
     = history (run twoBoxes initial)
  /\ currentStep (step (Change 1700000000002 (lit "ok"))
                    (run twoBoxes initial))
     = currentStep (run twoBoxes initial).
Proof.
  assert (Hr : reachable (run twoBoxes initial))
    by (exists twoBoxes; reflexivity).
  exact (conj Hr
           (keystroke_touches_only_values 1700000000002 (lit "ok")
              (run twoBoxes initial) Hr)).
Defined.

Lemma run_app (l1 l2 : list Event) (s : State) :
  run (l1 ++ l2) s = run l2 (run l1 s).
Proof. unfold run. apply fold_left_app. Qed.

Lemma typing_leavesHistoryAlone (keys : list (Z * jsstring)) :
  forallb leavesHistoryAlone (typing keys) = true.
Proof. induction keys as [|k keys IH]; simpl; auto. Qed.

(** A burst of keystrokes ending with [(id, v)]: the timer it leaves
    armed was created by the render before the last keystroke. *)
Lemma run_typing_last (keys : list (Z * jsstring)) (id : Z) (v : jsstring)
    (s : State) :
  Settled s ->
  Settled (run (typing keys) s)
  /\ run (typing (keys ++ [(id, v)])) s
     = step (Change id v) (run (typing keys) s)
  /\ timeoutRef (run (typing (keys ++ [(id, v)])) s)
     = Some (mkTimer (live (run (typing keys) s)) id v)
  /\ history (run (typing (keys ++ [(id, v)])) s) = history s
  /\ currentStep (run (typing (keys ++ [(id, v)])) s) = currentStep s.
Proof.
  intros H.
  pose proof (run_settled (typing keys) s H) as H0.
  assert (E : run (typing (keys ++ [(id, v)])) s
              = step (Change id v) (run (typing keys) s)).
  { unfold typing. rewrite map_app, run_app. reflexivity. }
  split; [exact H0|]. split; [exact E|].
  split.
  - rewrite E, (step_Change id v _ H0). reflexivity.
  - apply run_leavesHistoryAlone; [exact H|].
    apply typing_leavesHistoryAlone.
Qed.

Lemma map_setValue_idem (id : Z) (v : jsstring) (l : list TextInput.t) :
  map (setValue id v) (map (setValue id v) l) = map (setValue id v) l.
Proof.
  rewrite map_map. apply map_ext. intros t. unfold setValue.
  destruct (TextInput.id t =? id) eqn:E; simpl; rewrite E; reflexivity.
Qed.

(** X10: in a reachable state, a burst of keystrokes of any length
    followed by the debounce timer firing is recorded once: [history] and
    [currentStep] do not move while the keys are typed, the firing
    advances [currentStep] by the two steps of one recorded action and
    changes no text, and a timer that has fired does not fire again. *)
Theorem typing_burst_is_recorded_once (keys : list (Z * jsstring))
    (id : Z) (v : jsstring) (s : State) :
  reachable s ->
  history (run (typing (keys ++ [(id, v)])) s) = history s
  /\ currentStep (run (typing (keys ++ [(id, v)])) s) = currentStep s
  /\ currentStep (run (typing (keys ++ [(id, v)]) ++ [DebounceFire]) s)
     = currentStep s + 2
  /\ textInputs (run (typing (keys ++ [(id, v)]) ++ [DebounceFire]) s)
     = textInputs (run (typing (keys ++ [(id, v)])) s)
  /\ run (typing (keys ++ [(id, v)]) ++ [DebounceFire; DebounceFire]) s
     = run (typing (keys ++ [(id, v)]) ++ [DebounceFire]) s.
Proof.
  intros Hr. apply reachable_settled in Hr.
  destruct (run_typing_last keys id v s Hr) as (H0 & E & Htm & Hh & Hc).
  pose proof (run_settled (typing (keys ++ [(id, v)])) s Hr) as H1.
  destruct (step_DebounceFire _ _ H1 Htm) as ((_ & Hc2 & _) & Ht2).
  split; [exact Hh|]. split; [exact Hc|].
  rewrite !run_app.
  change (run [DebounceFire] ?x) with (step DebounceFire x).
  change (run [DebounceFire; DebounceFire] ?x)
    with (step DebounceFire (step DebounceFire x)).
  split; [rewrite Hc2, Hc; lia|].
  split.
  - rewrite Ht2. cbn [tm_id tm_value]. rewrite E, (step_Change id v _ H0).
    cbn [textInputs setTimeoutRef setTextInputs]. apply map_setValue_idem.
  - assert (Hnone : timeoutRef
                      (step DebounceFire
                         (run (typing (keys ++ [(id, v)])) s)) = None).
    { revert Htm H1.
      generalize (run (typing (keys ++ [(id, v)])) s) as s1.
      intros s1 Htm H1. settled_cells s1 H1. reflexivity. }
    pose proof (step_settled DebounceFire _ H1) as H2.
    unfold step at 1. unfold handle, debounceFire.
    rewrite Hnone. cbn [fst]. apply runEffects_idle, H2.
Qed.

Lemma typing_burst_is_recorded_once_witness :
  reachable (run oneBox initial)
  /\ history (run (typing ([(1700000000001, lit "H")]
                           ++ [(1700000000001, lit "Hi")]))
                (run oneBox initial))
     = history (run oneBox initial)
  /\ currentStep (run (typing ([(1700000000001, lit "H")]
                               ++ [(1700000000001, lit "Hi")]))
                    (run oneBox initial))
     = currentStep (run oneBox initial)
  /\ currentStep (run (typing ([(1700000000001, lit "H")]
                               ++ [(1700000000001, lit "Hi")])
                       ++ [DebounceFire])
                    (run oneBox initial))
     = currentStep (run oneBox initial) + 2
  /\ textInputs (run (typing ([(1700000000001, lit "H")]
                              ++ [(1700000000001, lit "Hi")])
                      ++ [DebounceFire])
                   (run oneBox initial))
     = textInputs (run (typing ([(1700000000001, lit "H")]
                                ++ [(1700000000001, lit "Hi")]))
                     (run oneBox initial))
  /\ run (typing ([(1700000000001, lit "H")]
                  ++ [(1700000000001, lit "Hi")])
          ++ [DebounceFire; DebounceFire])
       (run oneBox initial)
     = run (typing ([(1700000000001, lit "H")]
                    ++ [(1700000000001, lit "Hi")])
            ++ [DebounceFire])
         (run oneBox initial).
Proof.
  assert (Hr : reachable (run oneBox initial))
    by (exists oneBox; reflexivity).
  exact (conj Hr
           (typing_burst_is_recorded_once [(1700000000001, lit "H")]
              1700000000001 (lit "Hi") (run oneBox initial) Hr)).
Defined.

(** X11: in a reachable state, an undo after a typing burst and its
    debounce brings back the state shown before the last keystroke of
    the burst, not the state before the burst: the debounced callback
    snapshots the render in which the last keystroke was typed. *)
Theorem undo_after_typing_drops_last_keystroke
    (keys : list (Z * jsstring)) (id : Z) (v : jsstring) (s : State) :
  reachable s ->
  live (run (typing (keys ++ [(id, v)]) ++ [DebounceFire; Undo]) s)
  = live (run (typing keys) s).
Proof.
  intros Hr. apply reachable_settled in Hr.
  destruct (run_typing_last keys id v s Hr) as (H0 & E & Htm & Hh & Hc).
  pose proof (run_settled (typing (keys ++ [(id, v)])) s Hr) as H1.
  destruct (step_DebounceFire _ _ H1 Htm) as (Hrec & _).
  rewrite run_app.
  change (run [DebounceFire; Undo] ?x) with (step Undo (step DebounceFire x)).
  rewrite (undo_recorded _ _ _ H1 Hrec).
  cbn [tm_render]. apply live_applyState.
Qed.

Lemma undo_after_typing_drops_last_keystroke_witness :
  reachable (run oneBox initial)
  /\ live (run (typing ([(1700000000001, lit "H")]
                        ++ [(1700000000001, lit "Hi")])
                ++ [DebounceFire; Undo])
             (run oneBox initial))
     = live (run (typing [(1700000000001, lit "H")]) (run oneBox initial)).
Proof.
  assert (Hr : reachable (run oneBox initial))
    by (exists oneBox; reflexivity).
  exact (conj Hr
           (undo_after_typing_drops_last_keystroke
              [(1700000000001, lit "H")] 1700000000001 (lit "Hi")
              (run oneBox initial) Hr)).
Defined.

(** X12: in a reachable state, a click on the preview does nothing at
    all while no preview is mounted; on a mounted preview it appends one
    box with an empty value at the click point measured from the
    container's corner, after the existing boxes, which it keeps, and
    leaves the signature alone. *)
Theorem preview_click_appends_one_box (cx cy : number) (rect : Rect)
    (now : Z) (s : State) :
  reachable s ->
  (containerMounted s = false -> step (PreviewClick cx cy rect now) s = s)
  /\ (containerMounted s = true ->
      textInputs (step (PreviewClick cx cy rect now) s)
      = textInputs s
        ++ [TextInput.mk now (cx - left rect) (cy - top rect) []]
      /\ signatureData (step (PreviewClick cx cy rect now) s)
         = signatureData s
      /\ signaturePosition (step (PreviewClick cx cy rect now) s)
         = signaturePosition s).
Proof.
  intros Hr. apply reachable_settled in Hr. split.
  - intros Hm. unfold step, handle, handlePreviewClick. rewrite Hm.
    cbn [negb fst]. apply runEffects_idle, Hr.
  - intros Hm.
    destruct (step_PreviewClick cx cy rect now s Hr Hm) as [_ Hl].
    apply (f_equal Snapshot.textInputs) in Hl as H1.
    apply (f_equal Snapshot.signatureData) in Hl as H2.
    apply (f_equal Snapshot.signaturePosition) in Hl as H3.
    simpl in H1, H2, H3. auto.
Qed.

Lemma preview_click_appends_one_box_witness :
  ((reachable initial /\ containerMounted initial = false)
   /\ step (PreviewClick 110 220 (mkRect 10 20) 1700000000001) initial
      = initial)
  /\ (reachable (run oneBox initial)
      /\ containerMounted (run oneBox initial) = true)
  /\ textInputs (step (PreviewClick 310 420 (mkRect 10 20) 1700000000002)
                   (run oneBox initial))
     = textInputs (run oneBox initial)
       ++ [TextInput.mk 1700000000002 (310 - left (mkRect 10 20))
             (420 - top (mkRect 10 20)) []]
  /\ signatureData (step (PreviewClick 310 420 (mkRect 10 20) 1700000000002)
                      (run oneBox initial))
     = signatureData (run oneBox initial)
  /\ signaturePosition
       (step (PreviewClick 310 420 (mkRect 10 20) 1700000000002)
          (run oneBox initial))
     = signaturePosition (run oneBox initial).
Proof.
  assert (Hr : reachable initial) by (exists []; reflexivity).
  assert (Hm : containerMounted initial = false) by reflexivity.
  assert (Hr' : reachable (run oneBox initial))
    by (exists oneBox; reflexivity).
  assert (Hm' : containerMounted (run oneBox initial) = true)
    by (vm_compute; reflexivity).
  exact (conj
           (conj (conj Hr Hm)
              (proj1 (preview_click_appends_one_box 110%float 220%float
                        (mkRect 10 20) 1700000000001 initial Hr) Hm))
           (conj (conj Hr' Hm')
              (proj2 (preview_click_appends_one_box 310%float 420%float
                        (mkRect 10 20) 1700000000002 (run oneBox initial)
                        Hr') Hm'))).
Defined.

(* ------------------------------------------------------------------ *)
(** ** Further properties of the signature *)

(** X13: [handleCaptureSignature] with no pad or an empty pad alerts
    'Please draw a signature first!' and changes nothing.  With a drawn
    pad it stores the pad's data URL and puts the signature back at
    (50, 50) wherever it had been dragged, touching neither the text
    boxes nor the history cells. *)
Theorem capture_needs_a_drawn_pad (pad : option SigPad) (s : State) :
  (match pad with None => True | Some p => isEmpty p = true end ->
   handleCaptureSignature pad s
   = (s, [Alert "Please draw a signature first!"]))
  /\ (forall p, pad = Some p -> isEmpty p = false ->
      snd (handleCaptureSignature pad s) = []
      /\ signatureData (fst (handleCaptureSignature pad s))
         = Some (toDataURL p)
      /\ signaturePosition (fst (handleCaptureSignature pad s))
         = Pos.mk 50 50
      /\ textInputs (fst (handleCaptureSignature pad s)) = textInputs s
      /\ history (fst (handleCaptureSignature pad s)) = history s
      /\ currentStep (fst (handleCaptureSignature pad s)) = currentStep s).
Proof.
  split.
  - destruct pad as [p|]; [|reflexivity].
    intros E. unfold handleCaptureSignature. rewrite E. reflexivity.
  - intros p -> E. unfold handleCaptureSignature. rewrite E.
    simpl. auto 10.
Qed.

Lemma capture_needs_a_drawn_pad_witness :
  ((isEmpty (mkSigPad true "data:image/png;base64,AAAA") = true)
   /\ handleCaptureSignature
        (Some (mkSigPad true "data:image/png;base64,AAAA"))
        (run signed initial)
      = (run signed initial, [Alert "Please draw a signature first!"]))
  /\ (Some (mkSigPad false "data:image/png;base64,BBBB")
      = Some (mkSigPad false "data:image/png;base64,BBBB")
      /\ isEmpty (mkSigPad false "data:image/png;base64,BBBB") = false)
  /\ snd (handleCaptureSignature
            (Some (mkSigPad false "data:image/png;base64,BBBB"))
            (run signed initial)) = []
  /\ signatureData
       (fst (handleCaptureSignature
               (Some (mkSigPad false "data:image/png;base64,BBBB"))
               (run signed initial)))
     = Some (toDataURL (mkSigPad false "data:image/png;base64,BBBB"))
  /\ signaturePosition
       (fst (handleCaptureSignature
               (Some (mkSigPad false "data:image/png;base64,BBBB"))
               (run signed initial)))
     = Pos.mk 50 50
  /\ textInputs
       (fst (handleCaptureSignature
               (Some (mkSigPad false "data:image/png;base64,BBBB"))
               (run signed initial)))
     = textInputs (run signed initial)
  /\ history
       (fst (handleCaptureSignature
               (Some (mkSigPad false "data:image/png;base64,BBBB"))
               (run signed initial)))
     = history (run signed initial)
  /\ currentStep
       (fst (handleCaptureSignature
               (Some (mkSigPad false "data:image/png;base64,BBBB"))
               (run signed initial)))
     = currentStep (run signed initial).
Proof.
  assert (E : isEmpty (mkSigPad true "data:image/png;base64,AAAA") = true)
    by reflexivity.
  assert (E1 : Some (mkSigPad false "data:image/png;base64,BBBB")
               = Some (mkSigPad false "data:image/png;base64,BBBB"))
    by reflexivity.
  assert (E2 : isEmpty (mkSigPad false "data:image/png;base64,BBBB") = false)
    by reflexivity.
  exact (conj
           (conj E
              (proj1 (capture_needs_a_drawn_pad
                        (Some (mkSigPad true "data:image/png;base64,AAAA"))
                        (run signed initial)) E))
           (conj (conj E1 E2)
              (proj2 (capture_needs_a_drawn_pad
                        (Some (mkSigPad false "data:image/png;base64,BBBB"))
                        (run signed initial))
                 (mkSigPad false "data:image/png;base64,BBBB") E1 E2))).
Defined.

Lemma step_MouseMove_single (d : Drag) (cx cy w h : number) (s : State) :
  Settled s ->
  containerMounted s = true ->
  dragListeners s = [d] ->
  step (MouseMove cx cy w h) s
  = setSignaturePosition (dragPosition d cx cy w h) s.
Proof.
  intros H Hm Hd. unfold step, handle, mouseMove.
  rewrite Hd, Hm. cbn [fst fold_left]. unfold handleMouseMove.
  apply runEffects_idle. simpl. apply H.
Qed.

Lemma run_moves_single (d : Drag) (w h : number)
    (moves : list (number * number)) (last : number * number) :
  forall s : State,
    Settled s ->
    containerMounted s = true ->
    dragListeners s = [d] ->
    run (map (fun m => MouseMove (fst m) (snd m) w h) (moves ++ [last])) s
    = setSignaturePosition (dragPosition d (fst last) (snd last) w h) s.
Proof.
  induction moves as [|m moves IH]; intros s H Hm Hd.
  - simpl. apply (step_MouseMove_single d _ _ w h s H Hm Hd).
  - cbn [app map run fold_left].
    change (fold_left (fun acc e => step e acc) ?l ?x) with (run l x).
    rewrite (step_MouseMove_single d _ _ w h s H Hm Hd).
    rewrite IH.
    + reflexivity.
    + destruct H. constructor; assumption.
    + exact Hm.
    + exact Hd.
Qed.

(** X14: in a reachable state with a mounted preview and no drag under
    way, a whole drag (pointer down, any pointer moves, a last move,
    pointer up) leaves the signature where the last move alone puts it,
    measured from the position and pointer of the pointer-down; the
    moves before it leave no trace.  Afterwards no listener is
    registered, a further pointer move changes nothing, and the text
    boxes and the signature image are the ones before the drag. *)
Theorem drag_ends_where_last_move_puts_it (down last : number * number)
    (moves : list (number * number)) (w h : number) (s : State) :
  reachable s ->
  containerMounted s = true ->
  dragListeners s = [] ->
  signaturePosition (run (dragGesture down (moves ++ [last]) w h) s)
  = dragPosition (mkDrag (fst down) (snd down) (signaturePosition s))
      (fst last) (snd last) w h
  /\ dragListeners (run (dragGesture down (moves ++ [last]) w h) s) = []
  /\ (forall cx cy w' h',
      step (MouseMove cx cy w' h')
        (run (dragGesture down (moves ++ [last]) w h) s)
      = run (dragGesture down (moves ++ [last]) w h) s)
  /\ textInputs (run (dragGesture down (moves ++ [last]) w h) s)
     = textInputs s
  /\ signatureData (run (dragGesture down (moves ++ [last]) w h) s)
     = signatureData s.
Proof.
  intros Hr Hm Hd. apply reachable_settled in Hr.
  pose proof (run_settled (dragGesture down (moves ++ [last]) w h) s Hr)
    as Hs'.
  set (d := mkDrag (fst down) (snd down) (signaturePosition s)).
  assert (E : run (dragGesture down (moves ++ [last]) w h) s
              = setDragListeners []
                  (setSignaturePosition
                     (dragPosition d (fst last) (snd last) w h)
                     (setDragListeners [d] s))).
  { unfold dragGesture.
    change (SigMouseDown (fst down) (snd down) :: ?l)
      with ([SigMouseDown (fst down) (snd down)] ++ l).
    rewrite !run_app.
    assert (E1 : run [SigMouseDown (fst down) (snd down)] s
                 = setDragListeners [d] s).
    { unfold run, fold_left, step, handle, handleSignatureMouseDown.
      cbn [fst]. rewrite Hd. cbn [app].
      apply runEffects_idle. simpl. apply Hr. }
    rewrite E1.
    rewrite (run_moves_single d w h moves last).
    - unfold run, fold_left, step, handle, mouseUp. cbn [fst].
      apply runEffects_idle. simpl. apply Hr.
    - destruct Hr. constructor; assumption.
    - exact Hm.
    - reflexivity. }
  split; [rewrite E; reflexivity|].
  split; [rewrite E; reflexivity|].
  split; [|split; rewrite E; reflexivity].
  intros cx cy w' h'. unfold step, handle, mouseMove.
  assert (Hn : dragListeners (run (dragGesture down (moves ++ [last]) w h) s)
               = []) by (rewrite E; reflexivity).
  rewrite Hn. cbn [fst]. apply runEffects_idle, Hs'.
Qed.

Lemma drag_ends_where_last_move_puts_it_witness :
  (reachable (run signed initial)
   /\ containerMounted (run signed initial) = true
   /\ dragListeners (run signed initial) = [])
  /\ signaturePosition
       (run (dragGesture (60, 75)%float
               ([(900, 900)%float] ++ [(200, 300)%float])
               800%float 1000%float)
          (run signed initial))
     = dragPosition
         (mkDrag (fst (60, 75)%float) (snd (60, 75)%float)
                 (signaturePosition (run signed initial)))
         (fst (200, 300)%float) (snd (200, 300)%float) 800 1000
  /\ dragListeners
       (run (dragGesture (60, 75)%float
               ([(900, 900)%float] ++ [(200, 300)%float])
               800%float 1000%float)
          (run signed initial)) = []
  /\ (forall cx cy w' h',
      step (MouseMove cx cy w' h')
        (run (dragGesture (60, 75)%float
                ([(900, 900)%float] ++ [(200, 300)%float])
                800%float 1000%float)
           (run signed initial))
      = run (dragGesture (60, 75)%float
               ([(900, 900)%float] ++ [(200, 300)%float])
               800%float 1000%float)
          (run signed initial))
  /\ textInputs
       (run (dragGesture (60, 75)%float
               ([(900, 900)%float] ++ [(200, 300)%float])
               800%float 1000%float)
          (run signed initial))
     = textInputs (run signed initial)
  /\ signatureData
       (run (dragGesture (60, 75)%float
               ([(900, 900)%float] ++ [(200, 300)%float])
               800%float 1000%float)
          (run signed initial))
     = signatureData (run signed initial).
Proof.
  assert (H1 : reachable (run signed initial))
    by (exists signed; reflexivity).
  assert (H2 : containerMounted (run signed initial) = true)
    by (vm_compute; reflexivity).
  assert (H3 : dragListeners (run signed initial) = [])
    by (vm_compute; reflexivity).
  exact (conj (conj H1 (conj H2 H3))
           (drag_ends_where_last_move_puts_it (60, 75)%float
              (200, 300)%float [(900, 900)%float] 800%float 1000%float
              (run signed initial) H1 H2 H3)).
Defined.

(* ------------------------------------------------------------------ *)
(** ** Further properties of the export *)

Lemma drawTexts_throws (container : option Container) (pd : Dim.t)
    (firstPage : option Dim.t) (inputs : list TextInput.t)
    (t : TextInput.t) :
  container = None \/ firstPage = None ->
  In t inputs ->
  blank (TextInput.value t) = false ->
  drawTexts container pd firstPage inputs = None.
Proof.
  intros Hmiss Hin Hnb.
  induction inputs as [|input rest IH]; [destruct Hin|].
  cbn [drawTexts]. rewrite trim_truthy, negb_involutive.
  destruct (blank (TextInput.value input)) eqn:Eb.
  - apply IH. destruct Hin as [E|Hin]; [|exact Hin].
    subst input. congruence.
  - destruct Hmiss as [-> | ->].
    + reflexivity.
    + destruct (convertToPdfCoordinates container pd (TextInput.x input)
                  (TextInput.y input)); reflexivity.
Qed.

Lemma drawTexts_all_blank (container : option Container) (pd : Dim.t)
    (firstPage : option Dim.t) (inputs : list TextInput.t) :
  (forall t, In t inputs -> blank (TextInput.value t) = true) ->
  drawTexts container pd firstPage inputs = Some [].
Proof.
  induction inputs as [|input rest IH]; intros Hall; [reflexivity|].
  cbn [drawTexts]. rewrite trim_truthy, negb_involutive.
  rewrite (Hall input) by (left; reflexivity).
  apply IH. intros t Ht. apply Hall. right. exact Ht.
Qed.

(** X15: how [handleSavePdf] fails and when it does not.  If the stored
    bytes no longer load, or if a box with a non-blank value has to be
    drawn while the preview container is missing or the document has no
    page, the only effects are the log line and the alert 'Failed to save
    PDF': nothing is downloaded and the state is kept.  If there is no
    signature and every box is blank, nothing is drawn and the document
    is saved as loaded, container or not.  A download only ever carries
    bytes that [save] returned for the stored document. *)
Theorem save_failure_modes (lib : PdfLib) (container : option Container)
    (s : State) :
  (forall bytes,
      pdfBytes s = Some bytes ->
      PDFDocument_load lib bytes = None ->
      handleSavePdf lib container s = (s, saveFailed))
  /\ (forall bytes pages t,
      pdfBytes s = Some bytes ->
      PDFDocument_load lib bytes = Some pages ->
      In t (textInputs s) ->
      blank (TextInput.value t) = false ->
      container = None \/ pages = [] ->
      handleSavePdf lib container s = (s, saveFailed))
  /\ (forall bytes pages,
      pdfBytes s = Some bytes ->
      PDFDocument_load lib bytes = Some pages ->
      truthy_opt (signatureData s) = false ->
      (forall t, In t (textInputs s) -> blank (TextInput.value t) = true) ->
      handleSavePdf lib container s
      = (s, match save lib bytes [] with
            | Some modifiedPdfBytes => [Download modifiedPdfBytes]
            | None => saveFailed
            end))
  /\ (forall b,
      In (Download b) (snd (handleSavePdf lib container s)) ->
      exists bytes ops,
        pdfBytes s = Some bytes
        /\ PDFDocument_load lib bytes <> None
        /\ save lib bytes ops = Some b).
Proof.
  split; [|split; [|split]].
  - intros bytes Hb Hl. unfold handleSavePdf. rewrite Hb, Hl. reflexivity.
  - intros bytes pages t Hb Hl Hin Hnb Hmiss.
    unfold handleSavePdf. rewrite Hb, Hl.
    destruct (drawSignature lib container (hd_error pages) s);
      [|reflexivity].
    rewrite (drawTexts_throws container (pageDimensions s)
               (hd_error pages) (textInputs s) t); [reflexivity| |assumption..].
    destruct Hmiss as [E|E]; [left; exact E|right; rewrite E; reflexivity].
  - intros bytes pages Hb Hl Hsig Hall.
    unfold handleSavePdf. rewrite Hb, Hl.
    unfold drawSignature. rewrite Hsig.
    rewrite (drawTexts_all_blank _ _ _ _ Hall). cbn [app].
    destruct (save lib bytes []); reflexivity.
  - intros b Hin. unfold handleSavePdf in Hin.
    assert (Hfail : ~ In (Download b) saveFailed)
      by (unfold saveFailed; cbn [In]; intros [E|[E|[]]]; discriminate E).
    destruct (pdfBytes s) as [bytes|] eqn:Hb;
      [|cbn [snd In] in Hin; destruct Hin as [E|[]]; discriminate E].
    destruct (PDFDocument_load lib bytes) as [pages|] eqn:Hl;
      [|cbn [snd] in Hin; contradiction].
    destruct (drawSignature lib container (hd_error pages) s) as [sigOps|];
      [|cbn [snd] in Hin; contradiction].
    destruct (drawTexts container (pageDimensions s) (hd_error pages)
                (textInputs s)) as [textOps|];
      [|cbn [snd] in Hin; contradiction].
    destruct (save lib bytes (sigOps ++ textOps)) as [b'|] eqn:Hs;
      [|cbn [snd] in Hin; contradiction].
    cbn [snd In] in Hin. destruct Hin as [E|[]]. injection E as ->.
    exists bytes, (sigOps ++ textOps).
    split; [reflexivity|]. split; [rewrite Hl; discriminate|exact Hs].
Qed.

Lemma save_failure_modes_witness :
  ((pdfBytes (run afterFailedLoad initial) = Some [Byte.x25; Byte.x21]
    /\ PDFDocument_load sampleLib [Byte.x25; Byte.x21] = None)
   /\ handleSavePdf sampleLib (Some (mkContainer 800 1000))
        (run afterFailedLoad initial)
      = (run afterFailedLoad initial, saveFailed))
  /\ ((pdfBytes (run mixedInputs initial) = Some []
       /\ PDFDocument_load sampleLib [] = Some [Dim.mk 612 792]
       /\ In (TextInput.mk 1700000000001 100 200 (lit "Hi"))
            (textInputs (run mixedInputs initial))
       /\ blank (TextInput.value
                   (TextInput.mk 1700000000001 100 200 (lit "Hi"))) = false
       /\ ((None : option Container) = None \/ [Dim.mk 612 792] = []))
      /\ handleSavePdf sampleLib None (run mixedInputs initial)
         = (run mixedInputs initial, saveFailed))
  /\ ((pdfBytes (run oneBox initial) = Some []
       /\ PDFDocument_load sampleLib [] = Some [Dim.mk 612 792]
       /\ truthy_opt (signatureData (run oneBox initial)) = false
       /\ (forall t, In t (textInputs (run oneBox initial)) ->
                     blank (TextInput.value t) = true))
      /\ handleSavePdf sampleLib None (run oneBox initial)
         = (run oneBox initial,
            match save sampleLib [] [] with
            | Some modifiedPdfBytes => [Download modifiedPdfBytes]
            | None => saveFailed
            end)).
Proof.
  assert (A1 : pdfBytes (run afterFailedLoad initial)
               = Some [Byte.x25; Byte.x21]) by (vm_compute; reflexivity).
  assert (A2 : PDFDocument_load sampleLib [Byte.x25; Byte.x21] = None)
    by reflexivity.
  assert (H1 : pdfBytes (run mixedInputs initial) = Some [])
    by (vm_compute; reflexivity).
  assert (H2 : PDFDocument_load sampleLib [] = Some [Dim.mk 612 792])
    by reflexivity.
  assert (H3 : In (TextInput.mk 1700000000001 100 200 (lit "Hi"))
                 (textInputs (run mixedInputs initial)))
    by (vm_compute; left; reflexivity).
  assert (H4 : blank (TextInput.value
                        (TextInput.mk 1700000000001 100 200 (lit "Hi")))
               = false) by (vm_compute; reflexivity).
  assert (H5 : (None : option Container) = None \/ [Dim.mk 612 792] = [])
    by (left; reflexivity).
  assert (B1 : pdfBytes (run oneBox initial) = Some [])
    by (vm_compute; reflexivity).
  assert (B3 : truthy_opt (signatureData (run oneBox initial)) = false)
    by (vm_compute; reflexivity).
  assert (B4 : forall t, In t (textInputs (run oneBox initial)) ->
                         blank (TextInput.value t) = true).
  { intros t Ht. vm_compute in Ht. destruct Ht as [<-|[]]. reflexivity. }
  exact (conj
           (conj (conj A1 A2)
              (proj1 (save_failure_modes sampleLib
                        (Some (mkContainer 800 1000))
                        (run afterFailedLoad initial))
                 [Byte.x25; Byte.x21] A1 A2))
           (conj
              (conj (conj H1 (conj H2 (conj H3 (conj H4 H5))))
                 (proj1 (proj2 (save_failure_modes sampleLib None
                                  (run mixedInputs initial)))
                    [] [Dim.mk 612 792]
                    (TextInput.mk 1700000000001 100 200 (lit "Hi"))
                    H1 H2 H3 H4 H5))
              (conj (conj B1 (conj H2 (conj B3 B4)))
                 (proj1 (proj2 (proj2 (save_failure_modes sampleLib None
                                         (run oneBox initial))))
                    [] [Dim.mk 612 792] B1 H2 B3 B4)))).
Defined.

(* ------------------------------------------------------------------ *)
(** ** Ordering of doubles, from the IEEE-754 specification *)

Lemma SFcompare_refl (x : spec_float) :
  x <> S754_nan -> SFcompare x x = Some Eq.
Proof.
  destruct x as [s|s| |s m e]; intros H; try reflexivity.
  - destruct s; reflexivity.
  - contradiction.
  - simpl. rewrite Z.compare_refl, Pos.compare_cont_refl.
    destruct s; reflexivity.
Qed.

Lemma SFcompare_antisym (x y : spec_float) :
  SFcompare y x = option_map CompOpp (SFcompare x y).
Proof.
  destruct x as [sx|sx| |sx mx ex], y as [sy|sy| |sy my ey];
    try reflexivity;
    try (destruct sx; reflexivity);
    try (destruct sy; reflexivity);
    try (destruct sx, sy; reflexivity).
  assert (A : Pos.compare_cont Eq my mx
              = CompOpp (Pos.compare_cont Eq mx my))
    by (symmetry; apply (Pos.compare_cont_antisym mx my Eq)).
  simpl. rewrite (Z.compare_antisym ex ey), A.
  destruct sx, sy, (ex ?= ey), (Pos.compare_cont Eq mx my); reflexivity.
Qed.

Lemma is_nan_false (a : float) :
  is_nan a = false <-> Prim2SF a <> S754_nan.
Proof.
  unfold is_nan. rewrite eqb_spec. unfold SFeqb. split.
  - intros H E. rewrite E in H. discriminate H.
  - intros H. rewrite (SFcompare_refl _ H). reflexivity.
Qed.

Lemma leb_not_nan (a b : float) :
  (a <=? b)%float = true -> is_nan a = false /\ is_nan b = false.
Proof.
  rewrite leb_spec. unfold SFleb. intros H.
  split; apply is_nan_false; intros E; rewrite E in H;
    [|destruct (Prim2SF a)]; discriminate H.
Qed.

Lemma ltb_leb (a b : float) :
  (a <? b)%float = true -> (a <=? b)%float = true.
Proof.
  rewrite ltb_spec, leb_spec. unfold SFltb, SFleb.
  destruct (SFcompare (Prim2SF a) (Prim2SF b)) as [[| |]|];
    intros H; try discriminate H; reflexivity.
Qed.

Lemma leb_refl (a : float) : is_nan a = false -> (a <=? a)%float = true.
Proof.
  intros H. apply is_nan_false in H.
  rewrite leb_spec. unfold SFleb. rewrite (SFcompare_refl _ H). reflexivity.
Qed.

(** Doubles other than NaN are totally ordered. *)
Lemma not_ltb_leb (a b : float) :
  is_nan a = false -> is_nan b = false ->
  (a <? b)%float = false -> (b <=? a)%float = true.
Proof.
  intros Ha Hb. apply is_nan_false in Ha. apply is_nan_false in Hb.
  rewrite ltb_spec, leb_spec. unfold SFltb, SFleb.
  rewrite (SFcompare_antisym (Prim2SF a) (Prim2SF b)).
  destruct (SFcompare (Prim2SF a) (Prim2SF b)) as [[| |]|] eqn:E;
    simpl; intros H; try discriminate H; try reflexivity.
  exfalso. destruct (Prim2SF a), (Prim2SF b);
    try discriminate E; contradiction.
Qed.

(** [Math.min(v, m)] of two numbers is a number not above [m]. *)
Lemma Math_min_le (v m : float) :
  is_nan v = false -> is_nan m = false ->
  is_nan (Math_min v m) = false /\ (Math_min v m <=? m)%float = true.
Proof.
  intros Hv Hm. unfold Math_min. rewrite Hv, Hm. cbn [orb].
  destruct (v <? m)%float eqn:E1; [split; [exact Hv|apply ltb_leb, E1]|].
  destruct (m <? v)%float eqn:E2; [split; [exact Hm|apply leb_refl, Hm]|].
  destruct (is_zero v && negb (get_sign v));
    [split; [exact Hm|apply leb_refl, Hm]|].
  split; [exact Hv|]. apply not_ltb_leb; assumption.
Qed.

(** [Math.max(10, r)] of a number [r] not above a bound that is itself at
    least 10 lies between 10 and the bound. *)
Lemma Math_max_10_between (r m : float) :
  is_nan r = false ->
  (r <=? m)%float = true ->
  (10 <=? m)%float = true ->
  (10 <=? Math_max 10 r)%float = true
  /\ (Math_max 10 r <=? m)%float = true.
Proof.
  intros Hr Hrm Hm. unfold Math_max.
  replace (is_nan 10) with false by (vm_compute; reflexivity).
  replace (is_zero 10) with false by (vm_compute; reflexivity).
  rewrite Hr. cbn [orb andb].
  destruct (10 <? r)%float eqn:E1; [split; [apply ltb_leb, E1|exact Hrm]|].
  assert (H10 : (10 <=? 10)%float = true) by (vm_compute; reflexivity).
  destruct (r <? 10)%float; split; assumption.
Qed.

(* ------------------------------------------------------------------ *)
(** ** Further properties of the drag *)

(** X16: whenever the container is at least 170 wide (that is
    [10 <= width - 160]) and the pointer arithmetic yields a number,
    the x a pointer move sets lies between 10 and [width - 160]; and
    whenever it is at least 70 high, the y it sets lies between 10 and
    [height - 60]. *)
Theorem drag_stays_inside_bounds (d : Drag) (cx cy w h : number) :
  ((10 <=? w - 160)%float = true ->
   is_nan (Pos.x (initPos d) + (cx - startX d)) = false ->
   (10 <=? Pos.x (dragPosition d cx cy w h))%float = true
   /\ (Pos.x (dragPosition d cx cy w h) <=? w - 160)%float = true)
  /\ ((10 <=? h - 60)%float = true ->
      is_nan (Pos.y (initPos d) + (cy - startY d)) = false ->
      (10 <=? Pos.y (dragPosition d cx cy w h))%float = true
      /\ (Pos.y (dragPosition d cx cy w h) <=? h - 60)%float = true).
Proof.
  unfold dragPosition. cbn [Pos.x Pos.y]. split; intros Hb Hv.
  - destruct (leb_not_nan _ _ Hb) as [_ Hm].
    destruct (Math_min_le _ _ Hv Hm) as [Hr Hle].
    apply Math_max_10_between; assumption.
  - destruct (leb_not_nan _ _ Hb) as [_ Hm].
    destruct (Math_min_le _ _ Hv Hm) as [Hr Hle].
    apply Math_max_10_between; assumption.
Qed.

Lemma drag_stays_inside_bounds_witness :
  ((10 <=? 800 - 160)%float = true
   /\ is_nan (Pos.x (initPos (mkDrag 60 75 (Pos.mk 50 50)))
              + (1060 - startX (mkDrag 60 75 (Pos.mk 50 50)))) = false
   /\ (10 <=? 1000 - 60)%float = true
   /\ is_nan (Pos.y (initPos (mkDrag 60 75 (Pos.mk 50 50)))
              + (-400 - startY (mkDrag 60 75 (Pos.mk 50 50)))) = false)
  /\ ((10 <=? Pos.x (dragPosition (mkDrag 60 75 (Pos.mk 50 50))
                       1060 (-400) 800 1000))%float = true
      /\ (Pos.x (dragPosition (mkDrag 60 75 (Pos.mk 50 50))
                   1060 (-400) 800 1000) <=? 800 - 160)%float = true)
  /\ ((10 <=? Pos.y (dragPosition (mkDrag 60 75 (Pos.mk 50 50))
                       1060 (-400) 800 1000))%float = true
      /\ (Pos.y (dragPosition (mkDrag 60 75 (Pos.mk 50 50))
                   1060 (-400) 800 1000) <=? 1000 - 60)%float = true).
Proof.
  assert (H1 : (10 <=? 800 - 160)%float = true) by (vm_compute; reflexivity).
  assert (H2 : is_nan (Pos.x (initPos (mkDrag 60 75 (Pos.mk 50 50)))
                       + (1060 - startX (mkDrag 60 75 (Pos.mk 50 50))))
               = false) by (vm_compute; reflexivity).
  assert (H3 : (10 <=? 1000 - 60)%float = true) by (vm_compute; reflexivity).
  assert (H4 : is_nan (Pos.y (initPos (mkDrag 60 75 (Pos.mk 50 50)))
                       + (-400 - startY (mkDrag 60 75 (Pos.mk 50 50))))
               = false) by (vm_compute; reflexivity).
  pose proof (drag_stays_inside_bounds (mkDrag 60 75 (Pos.mk 50 50))
                1060 (-400) 800 1000)%float as T.
  exact (conj (conj H1 (conj H2 (conj H3 H4)))
           (conj (proj1 T H1 H2) (proj2 T H3 H4))).
Defined.

(* ------------------------------------------------------------------ *)
(** ** The canvas editor *)

(** X17: [saveAsPdf] of the canvas editor does nothing without a canvas
    or without a selected file.  Otherwise it always ends with the busy
    flag lowered and the canvas and the file kept, and it puts out either
    the failure log and the alert 'Failed to save PDF' or one download
    named [edited_] followed by the file's name; a download happens only
    when every collaborator call succeeded, and it carries the bytes
    [save] returned for the first page covered from (0,0) to the page's
    full width and height with the canvas image. *)
Theorem canvas_save_always_lowers_busy_flag (io : CanvasEditor.Collab)
    (s : CanvasEditor.State) :
  (CanvasEditor.canvas s = None \/ CanvasEditor.pdfFile s = None ->
   CanvasEditor.saveAsPdf io s = (s, []))
  /\ (forall c f,
      CanvasEditor.canvas s = Some c ->
      CanvasEditor.pdfFile s = Some f ->
      CanvasEditor.isLoading (fst (CanvasEditor.saveAsPdf io s)) = false
      /\ CanvasEditor.canvas (fst (CanvasEditor.saveAsPdf io s)) = Some c
      /\ CanvasEditor.pdfFile (fst (CanvasEditor.saveAsPdf io s)) = Some f
      /\ (snd (CanvasEditor.saveAsPdf io s) = CanvasEditor.saveFailed
          \/ exists b,
               snd (CanvasEditor.saveAsPdf io s)
               = [CanvasEditor.Download
                    (String.append "edited_" (CanvasEditor.cf_name f)) b])
      /\ (forall n b,
          In (CanvasEditor.Download n b)
             (snd (CanvasEditor.saveAsPdf io s)) ->
          exists canvasImage buf page pages png,
            CanvasEditor.toDataURL io c = Some canvasImage
            /\ CanvasEditor.cf_arrayBuffer f = Some buf
            /\ CanvasEditor.load io buf = Some (page :: pages)
            /\ CanvasEditor.embedPng io canvasImage = Some png
            /\ CanvasEditor.save io buf
                 (CanvasEditor.mkPageImage png 0 0 (Dim.width page)
                    (Dim.height page) 1) = Some b)).
Proof.
  split.
  - intros [H|H]; unfold CanvasEditor.saveAsPdf; rewrite H;
      [reflexivity|destruct (CanvasEditor.canvas s); reflexivity].
  - intros c f Hc Hf. unfold CanvasEditor.saveAsPdf. rewrite Hc, Hf.
    destruct (CanvasEditor.savedBytes io c f) as [b|] eqn:Hb; cbn [fst snd].
    + split; [reflexivity|]. split; [exact Hc|]. split; [exact Hf|].
      split; [right; exists b; reflexivity|].
      intros n b' [E|[]]. injection E as _ <-.
      unfold CanvasEditor.savedBytes in Hb.
      destruct (CanvasEditor.toDataURL io c) as [img|]; [|discriminate].
      destruct (CanvasEditor.cf_arrayBuffer f) as [buf|]; [|discriminate].
      destruct (CanvasEditor.load io buf) as [[|page pages]|] eqn:Hload;
        try discriminate.
      destruct (CanvasEditor.embedPng io img) as [png|] eqn:Hpng;
        [|discriminate].
      exists img, buf, page, pages, png. auto 10.
    + split; [reflexivity|]. split; [exact Hc|]. split; [exact Hf|].
      split; [left; reflexivity|].
      intros n b' Hin. exfalso. unfold CanvasEditor.saveFailed in Hin.
      cbn [In] in Hin. destruct Hin as [E|[E|[]]]; discriminate E.
Qed.

Lemma canvas_save_always_lowers_busy_flag_witness :
  (CanvasEditor.canvas
     (CanvasEditor.mkState
        (Some (CanvasEditor.mkCanvas 800 1000 [] None None))
        (Some (CanvasEditor.mkCFile "form.pdf" (Some []))) false)
   = Some (CanvasEditor.mkCanvas 800 1000 [] None None)
   /\ CanvasEditor.pdfFile
        (CanvasEditor.mkState
           (Some (CanvasEditor.mkCanvas 800 1000 [] None None))
           (Some (CanvasEditor.mkCFile "form.pdf" (Some []))) false)
      = Some (CanvasEditor.mkCFile "form.pdf" (Some [])))
  /\ CanvasEditor.saveAsPdf CanvasEditor.okCollab
       (CanvasEditor.mkState
          (Some (CanvasEditor.mkCanvas 800 1000 [] None None))
          (Some (CanvasEditor.mkCFile "form.pdf" (Some []))) false)
     = (CanvasEditor.mkState
          (Some (CanvasEditor.mkCanvas 800 1000 [] None None))
          (Some (CanvasEditor.mkCFile "form.pdf" (Some []))) false,
        [CanvasEditor.Download "edited_form.pdf" []])
  /\ CanvasEditor.isLoading
       (fst (CanvasEditor.saveAsPdf CanvasEditor.okCollab
               (CanvasEditor.mkState
                  (Some (CanvasEditor.mkCanvas 800 1000 [] None None))
                  (Some (CanvasEditor.mkCFile "form.pdf" (Some [])))
                  false)))
     = false.
Proof.
  split; [split; reflexivity|].
  split; [reflexivity|].
  apply (proj2 (canvas_save_always_lowers_busy_flag CanvasEditor.okCollab
                  (CanvasEditor.mkState
                     (Some (CanvasEditor.mkCanvas 800 1000 [] None None))
                     (Some (CanvasEditor.mkCFile "form.pdf" (Some [])))
                     false))
           (CanvasEditor.mkCanvas 800 1000 [] None None)
           (CanvasEditor.mkCFile "form.pdf" (Some []))
           eq_refl eq_refl).
Defined.

(** X18: [handleFileChange] of the canvas editor ignores an empty
    selection.  Any selected file, whatever its type, becomes [pdfFile]
    before it is processed and stays so when reading or rasterizing it
    fails; in that case the failure log and the alert 'Failed to process
    PDF' are put out and the canvas is left as it was.  In every case the
    busy flag ends lowered. *)
Theorem canvas_file_is_kept_even_if_unreadable (io : CanvasEditor.Collab)
    (f : CanvasEditor.CFile) (s : CanvasEditor.State) :
  CanvasEditor.handleFileChange io None s = (s, [])
  /\ CanvasEditor.pdfFile (fst (CanvasEditor.handleFileChange io (Some f) s))
     = Some f
  /\ CanvasEditor.isLoading
       (fst (CanvasEditor.handleFileChange io (Some f) s)) = false
  /\ (match CanvasEditor.cf_arrayBuffer f with
      | None => True
      | Some buf => CanvasEditor.rasterize io buf = None
      end ->
      snd (CanvasEditor.handleFileChange io (Some f) s)
      = [CanvasEditor.ConsoleError "PDF conversion error:";
         CanvasEditor.Alert "Failed to process PDF"]
      /\ CanvasEditor.canvas
           (fst (CanvasEditor.handleFileChange io (Some f) s))
         = CanvasEditor.canvas s).
Proof.
  split; [reflexivity|].
  unfold CanvasEditor.handleFileChange, CanvasEditor.convertPdfToImage.
  destruct (CanvasEditor.cf_arrayBuffer f) as [buf|].
  - destruct (CanvasEditor.rasterize io buf) as [url|] eqn:Hr.
    + destruct (CanvasEditor.canvas s) as [c|] eqn:Hc.
      * destruct (String.eqb url EmptyString) eqn:Hu.
        -- cbn [fst snd]. split; [reflexivity|]. split; [reflexivity|].
           intros H; discriminate H.
        -- unfold CanvasEditor.loadBackground. cbn [CanvasEditor.canvas
             CanvasEditor.setIsLoading CanvasEditor.setPdfFile].
           rewrite Hc, Hu.
           destruct (CanvasEditor.fromURL io url) as [[w h]|];
             cbn [fst snd]; (split; [reflexivity|]);
             (split; [reflexivity|]); intros H; discriminate H.
      * cbn [fst snd]. split; [reflexivity|]. split; [reflexivity|].
        intros H; discriminate H.
    + cbn [fst snd]. split; [reflexivity|]. split; [reflexivity|].
      intros _. split; reflexivity.
  - cbn [fst snd]. split; [reflexivity|]. split; [reflexivity|].
    intros _. split; reflexivity.
Qed.

Lemma canvas_file_is_kept_even_if_unreadable_witness :
  (match CanvasEditor.cf_arrayBuffer (CanvasEditor.mkCFile "photo.png" None)
   with
   | None => True
   | Some buf => CanvasEditor.rasterize CanvasEditor.okCollab buf = None
   end)
  /\ snd (CanvasEditor.handleFileChange CanvasEditor.okCollab
            (Some (CanvasEditor.mkCFile "photo.png" None))
            (CanvasEditor.mount CanvasEditor.initial))
     = [CanvasEditor.ConsoleError "PDF conversion error:";
        CanvasEditor.Alert "Failed to process PDF"]
  /\ CanvasEditor.canvas
       (fst (CanvasEditor.handleFileChange CanvasEditor.okCollab
               (Some (CanvasEditor.mkCFile "photo.png" None))
               (CanvasEditor.mount CanvasEditor.initial)))
     = CanvasEditor.canvas (CanvasEditor.mount CanvasEditor.initial).
Proof.
  split; [exact I|].
  apply (proj2 (proj2 (proj2
           (canvas_file_is_kept_even_if_unreadable CanvasEditor.okCollab
              (CanvasEditor.mkCFile "photo.png" None)
              (CanvasEditor.mount CanvasEditor.initial))))).
  exact I.
Defined.

Lemma canvas_uiStep_keeps_closed (e : CanvasEditor.UIEvent)
    (s : CanvasEditor.State) :
  CanvasEditor.pdfFile s = None ->
  CanvasEditor.isLoading s = false ->
  (forall c, CanvasEditor.canvas s = Some c -> CanvasEditor.cv_objects c = []) ->
  CanvasEditor.pdfFile (fst (CanvasEditor.uiStep e s)) = None
  /\ CanvasEditor.isLoading (fst (CanvasEditor.uiStep e s)) = false
  /\ (forall c, CanvasEditor.canvas (fst (CanvasEditor.uiStep e s)) = Some c ->
                CanvasEditor.cv_objects c = [])
  /\ (forall n b, ~ In (CanvasEditor.Download n b)
                       (snd (CanvasEditor.uiStep e s))).
Proof.
  intros Hf Hl Ho.
  assert (Hd : CanvasEditor.buttonsDisabled s = true).
  { unfold CanvasEditor.buttonsDisabled. rewrite Hf.
    apply orb_true_r. }
  destruct e; unfold CanvasEditor.uiStep; try rewrite Hd; cbn [fst snd].
  - repeat split; try assumption.
    + intros c E. injection E as <-. reflexivity.
    + intros n b [].
  - unfold CanvasEditor.placeholderLoaded.
    destruct (CanvasEditor.canvas s) as [c|] eqn:Hc; cbn.
    + repeat split; try assumption.
      * intros c' E. injection E as <-. apply (Ho c eq_refl).
      * intros n b [].
    + repeat split; try assumption.
      * rewrite Hc. intros c' E. discriminate E.
      * intros n b [].
  - repeat split; try assumption.
    intros n b [E|[]]. discriminate E.
  - repeat split; try assumption. intros n b [].
  - repeat split; try assumption. intros n b [].
  - repeat split; try assumption. intros n b [].
Qed.

(** X19: no session of the rendered canvas editor ever opens a file.
    The file input is wired to [testPdfRead], which throws, so whatever
    the user does [pdfFile] stays null, the three buttons stay disabled,
    the busy flag stays lowered, nothing is added to the canvas and
    nothing is downloaded. *)
Theorem canvas_ui_never_opens_a_file (events : list CanvasEditor.UIEvent) :
  CanvasEditor.pdfFile
    (fst (CanvasEditor.uiRun events CanvasEditor.initial)) = None
  /\ CanvasEditor.isLoading
       (fst (CanvasEditor.uiRun events CanvasEditor.initial)) = false
  /\ CanvasEditor.buttonsDisabled
       (fst (CanvasEditor.uiRun events CanvasEditor.initial)) = true
  /\ (forall c,
      CanvasEditor.canvas
        (fst (CanvasEditor.uiRun events CanvasEditor.initial)) = Some c ->
      CanvasEditor.cv_objects c = [])
  /\ (forall n b,
      ~ In (CanvasEditor.Download n b)
           (snd (CanvasEditor.uiRun events CanvasEditor.initial))).
Proof.
  assert (G : forall evs s,
             CanvasEditor.pdfFile s = None ->
             CanvasEditor.isLoading s = false ->
             (forall c, CanvasEditor.canvas s = Some c ->
                        CanvasEditor.cv_objects c = []) ->
             CanvasEditor.pdfFile (fst (CanvasEditor.uiRun evs s)) = None
             /\ CanvasEditor.isLoading (fst (CanvasEditor.uiRun evs s))
                = false
             /\ (forall c,
                 CanvasEditor.canvas (fst (CanvasEditor.uiRun evs s))
                 = Some c -> CanvasEditor.cv_objects c = [])
             /\ (forall n b,
                 ~ In (CanvasEditor.Download n b)
                      (snd (CanvasEditor.uiRun evs s)))).
  { induction evs as [|e evs IH]; intros s Hf Hl Ho.
    - cbn. repeat split; try assumption. intros n b [].
    - cbn [CanvasEditor.uiRun].
      destruct (canvas_uiStep_keeps_closed e s Hf Hl Ho)
        as (Hf1 & Hl1 & Ho1 & Hn1).
      destruct (CanvasEditor.uiStep e s) as [s1 out1].
      cbn [fst snd] in *.
      destruct (IH s1 Hf1 Hl1 Ho1) as (Hf2 & Hl2 & Ho2 & Hn2).
      destruct (CanvasEditor.uiRun evs s1) as [s2 out2].
      cbn [fst snd] in *.
      repeat split; try assumption.
      intros n b Hin. apply in_app_or in Hin as [Hin|Hin];
        [apply (Hn1 n b Hin)|apply (Hn2 n b Hin)]. }
  destruct (G events CanvasEditor.initial) as (Hf & Hl & Ho & Hn);
    try reflexivity; [intros c E; discriminate E|].
  split; [exact Hf|]. split; [exact Hl|].
  split; [|split; assumption].
  unfold CanvasEditor.buttonsDisabled. rewrite Hf. apply orb_true_r.
Qed.
